(** * firestore-data-converter: a shallow embedding of the conversion engine

    Source: [src/firestore-data-converter.js] (class [FirestoreDataConverter],
    class [ContinueConversion]) and [src/util.js] ([isInstanceOf]).

    JavaScript values are embedded as the inductive type [value].  An object
    carries the constructors met along its prototype chain (nearest first) and
    its own enumerable data properties in the order [Object.entries] lists
    them.  An array carries its slots ([None] is a hole) and the own properties
    that are neither an index nor [length].

    Scope of the embedding.  [value.constructor] is read off the prototype
    chain and a converter table is searched by its own keys.  This is what the
    source does for the values singled out by [ordinary]: objects and arrays
    without an own property called [constructor] or [__proto__], whose own
    properties are enumerable data properties with pairwise distinct keys,
    and classes whose names are not names of members of [Object.prototype].
    A statement about all objects, or about all constructor keys, that is
    meant for the source carries this restriction as a hypothesis.  Numbers
    are embedded as
    integers: the only number the source computes is the length of an array.
    Services of the JavaScript runtime that the source calls but that cannot
    be read off a value ([Timestamp.prototype.toDate], [new Function], the
    coercion performed when a non-number is assigned to the [length] of an
    array, the own properties of a function) are the fields of the class
    [Host]. *)

From Stdlib Require Import ZArith DecimalString.
From Stdlib Require DecimalNat DecimalN DecimalPos.
From stdpp Require Import base decidable option list strings gmap.

Set Warnings "-register-all".
Local Open Scope string_scope.
Local Open Scope list_scope.

(** ** Outcomes of a call *)

(** A call returns, throws, or exhausts the call stack ([fuel]). *)
Inductive outcome (A : Type) : Type :=
| Return (a : A)
| Throw (message : string)
| Overflow.
Arguments Return {A} a.
Arguments Throw {A} message.
Arguments Overflow {A}.

Definition bind {A B : Type} (m : outcome A) (k : A -> outcome B) : outcome B :=
  match m with
  | Return a => k a
  | Throw e => Throw e
  | Overflow => Overflow
  end.

Notation "'do' x <- m ; k" := (bind m (fun x => k))
  (at level 10, x pattern, m at level 100, k at level 200).

(** [xs.map(f)]-style traversal: left to right, the first failure wins. *)
Fixpoint traverse {A B : Type} (f : A -> outcome B) (l : list A) : outcome (list B) :=
  match l with
  | [] => Return []
  | x :: l' => do y <- f x; do ys <- traverse f l'; Return (y :: ys)
  end.

(** ** Values *)

(** Constructor functions, compared by identity: the built-in [Object] and
    [Date], the exported [ContinueConversion], and classes known by name. *)
Inductive ctor : Type :=
| CObject
| CDate
| CContinueConversion
| CClass (name : string).

Definition ctor_name (c : ctor) : string :=
  match c with
  | CObject => "Object"
  | CDate => "Date"
  | CContinueConversion => "ContinueConversion"
  | CClass name => name
  end.

Global Instance ctor_eq_dec : EqDecision ctor.
Proof. solve_decision. Defined.

Inductive value : Type :=
| VUndefined
| VNull
| VBool (b : bool)
| VNumber (n : Z)
| VString (s : string)
| VBigInt (n : Z)
| VSymbol (description : string)
| VFunction (name source : string)
| VArray (items : list (option value)) (extra : list (string * value))
| VObject (protos : list ctor) (props : list (string * value)).

(** [typeof value] *)
Definition typeof (v : value) : string :=
  match v with
  | VUndefined => "undefined"
  | VNull => "object"
  | VBool _ => "boolean"
  | VNumber _ => "number"
  | VString _ => "string"
  | VBigInt _ => "bigint"
  | VSymbol _ => "symbol"
  | VFunction _ _ => "function"
  | VArray _ _ => "object"
  | VObject _ _ => "object"
  end.

(** [value?.constructor]: primitives are boxed, [null] and [undefined] and
    objects without a prototype have none.  The constructor is the one the
    prototype chain gives: an own property called [constructor], which the
    source would read first, is outside the embedding (see [ordinary]). *)
Definition constructor_of (v : value) : option ctor :=
  match v with
  | VUndefined | VNull => None
  | VBool _ => Some (CClass "Boolean")
  | VNumber _ => Some (CClass "Number")
  | VString _ => Some (CClass "String")
  | VBigInt _ => Some (CClass "BigInt")
  | VSymbol _ => Some (CClass "Symbol")
  | VFunction _ _ => Some (CClass "Function")
  | VArray _ _ => Some (CClass "Array")
  | VObject protos _ => head protos
  end.

(** [value?.constructor?.name] *)
Definition constructorName (v : value) : option string :=
  ctor_name <$> constructor_of v.

(** [value instanceof C] *)
Definition instanceof (v : value) (c : ctor) : bool :=
  match v with
  | VObject protos _ => bool_decide (c ∈ protos)
  | _ => false
  end.

(** [Array.isArray(value)] *)
Definition isArray (v : value) : bool :=
  match v with VArray _ _ => true | _ => false end.

(** ** Own properties *)

(** [obj[key]] on the own properties. *)
Fixpoint lookup_prop (key : string) (ps : list (string * value)) : option value :=
  match ps with
  | [] => None
  | (k, v) :: ps' => if decide (k = key) then Some v else lookup_prop key ps'
  end.

(** [obj[key] = v]: an existing property keeps its place, a new one is added
    last.  Two keys are outside the embedding: [__proto__], for which the
    source runs the prototype setter and creates no own property (see
    [ordinary_key]), and a new key that is an array index, which
    [Object.entries] lists among the indices and not last (see
    [index_of_key]). *)
Fixpoint set_prop (key : string) (v : value) (ps : list (string * value))
  : list (string * value) :=
  match ps with
  | [] => [(key, v)]
  | (k, w) :: ps' =>
      if decide (k = key) then (k, v) :: ps' else (k, w) :: set_prop key v ps'
  end.

(** [Object.fromEntries(entries)] *)
Definition fromEntries (entries : list (string * value)) : list (string * value) :=
  foldl (fun acc kv => set_prop kv.1 kv.2 acc) [] entries.

(** The property key of array index [i]. *)
Definition key_of_index (i : nat) : string :=
  NilZero.string_of_uint (Nat.to_uint i).

(** The array index a property key denotes: a canonical decimal numeral below
    [2^32 - 1]. *)
Definition index_of_key (key : string) : option nat :=
  match NilZero.uint_of_string key with
  | Some u =>
      let n := N.of_uint u in
      if decide (NilZero.string_of_uint (N.to_uint n) = key /\ (n < 4294967295)%N)
      then Some (N.to_nat n) else None
  | None => None
  end.

(** The index properties of an array, holes left out. *)
Fixpoint index_entries (i : nat) (items : list (option value)) : list (string * value) :=
  match items with
  | [] => []
  | Some v :: items' => (key_of_index i, v) :: index_entries (S i) items'
  | None :: items' => index_entries (S i) items'
  end.

(** The one-character strings of a string, as index properties. *)
Fixpoint char_entries (i : nat) (s : string) : list (string * value) :=
  match s with
  | EmptyString => []
  | String c s' => (key_of_index i, VString (String c EmptyString)) :: char_entries (S i) s'
  end.

(** [Object.entries(value)]: the own enumerable string-keyed properties. *)
Definition entries (v : value) : outcome (list (string * value)) :=
  match v with
  | VUndefined | VNull => Throw "TypeError: Cannot convert undefined or null to object"
  | VObject _ props => Return props
  | VArray items extra => Return (index_entries 0 items ++ extra)%list
  | VString s => Return (char_entries 0 s)
  | _ => Return []
  end.

(** [value?.[key]] as far as a comparison with a string literal can tell:
    own properties of objects, arrays and strings, [name] of a function,
    [description] of a symbol. *)
Definition get (v : value) (key : string) : option value :=
  match v with
  | VObject _ props => lookup_prop key props
  | VArray items extra =>
      match index_of_key key with
      | Some i => mjoin (items !! i)
      | None => if decide (key = "length") then Some (VNumber (Z.of_nat (length items)))
                else lookup_prop key extra
      end
  | VString s =>
      match index_of_key key with
      | Some i => snd <$> (char_entries 0 s !! i)
      | None => if decide (key = "length") then Some (VNumber (Z.of_nat (String.length s)))
                else None
      end
  | VFunction name _ => if decide (key = "name") then Some (VString name) else None
  | VSymbol description =>
      if decide (key = "description") then Some (VString description) else None
  | _ => None
  end.

(** [value?.[key] === tag] for a string literal [tag]. *)
Definition tagged (v : value) (key tag : string) : bool :=
  match get v key with
  | Some (VString s) => bool_decide (s = tag)
  | _ => false
  end.

(** ** Configuration *)

(** A custom converter: a function of the raw value. *)
Abbreviation converter := (value -> outcome value).

(** [this.options] after the constructor has run. *)
Record options : Type := {
  toFirestoreConverters : gmap string converter;
  fromFirestoreConverters : gmap string converter;
  undefinedValues : string;
  multidimensionalArrays : string;
  functions : string;
  classInstances : string;
  fallback : string;
  constructorKey : string;
}.

(** The options object handed to the constructor: every field may be missing. *)
Record user_options : Type := {
  u_toFirestoreConverters : option (gmap string converter);
  u_fromFirestoreConverters : option (gmap string converter);
  u_undefinedValues : option string;
  u_multidimensionalArrays : option string;
  u_functions : option string;
  u_classInstances : option string;
  u_fallback : option string;
  u_constructorKey : option string;
}.

(** [constructor(options = {})]: each [??=] fills in a missing field. *)
Definition FirestoreDataConverter (u : user_options) : options := {|
  toFirestoreConverters := default ∅ (u_toFirestoreConverters u);
  fromFirestoreConverters := default ∅ (u_fromFirestoreConverters u);
  undefinedValues := default "omit" (u_undefinedValues u);
  multidimensionalArrays := default "convert" (u_multidimensionalArrays u);
  functions := default "omit" (u_functions u);
  classInstances := default "convert" (u_classInstances u);
  fallback := default "return" (u_fallback u);
  constructorKey := default "_constructor" (u_constructorKey u);
|}.

Definition no_options : user_options :=
  Build_user_options None None None None None None None None.

(** [new FirestoreDataConverter()] *)
Definition default_options : options := FirestoreDataConverter no_options.

(** ** The runtime *)

Class Host : Type := {
  (** [value.toDate()] *)
  toDate : value -> outcome value;
  (** [new Function(`return ${text}`)()] *)
  evalReturn : value -> outcome value;
  (** [array.length = v] for a [v] that is not a number: the new length, or
      the error of the coercion. *)
  coerceLength : value -> outcome nat;
  (** the own properties of a function ([length], [name], ...) *)
  functionProperties : value -> list (string * value);
}.

(** ** Building blocks of the two dispatch procedures *)

(** [customValue instanceof ContinueConversion] *)
Definition is_continue (v : value) : bool := instanceof v CContinueConversion.

(** [if (key in table) { const customValue = table[key](value);
      if (!(customValue instanceof ContinueConversion)) return customValue }],
    followed by [otherwise]. *)
Definition custom (table : gmap string converter) (key : string) (v : value)
    (otherwise : outcome value) : outcome value :=
  match table !! key with
  | Some f => do customValue <- f v;
              if is_continue customValue then otherwise else Return customValue
  | None => otherwise
  end.

(** The same step guarded by [constructorName &&]: skipped when the name is
    [undefined] or empty. *)
Definition custom_named (table : gmap string converter) (name : option string)
    (v : value) (otherwise : outcome value) : outcome value :=
  match name with
  | Some n => if decide (n = "") then otherwise else custom table n v otherwise
  | None => otherwise
  end.

(** [value.toString()] of a symbol. *)
Definition symbol_toString (description : string) : string :=
  "Symbol(" +:+ description +:+ ")".

(** [`${value}`] for the values that reach the last case: the source text of a
    function. *)
Definition template (v : value) : string :=
  match v with
  | VFunction _ source => source
  | VString s => s
  | _ => ""
  end.

(** The constructor names of the store's own types. *)
Definition firestore_types : list string :=
  ["DocumentReference"; "GeoPoint"; "Timestamp"; "FieldValue"].

(** [Object.getOwnPropertyNames(object).map(key => [key, object[key]])] *)
Definition ownProperties `{Host} (object : value) : outcome (list (string * value)) :=
  match object with
  | VUndefined | VNull => Throw "TypeError: Cannot convert undefined or null to object"
  | VObject _ props => Return props
  | VArray items extra =>
      Return (index_entries 0 items
              ++ [("length", VNumber (Z.of_nat (length items)))] ++ extra)%list
  | VString s =>
      Return (char_entries 0 s
              ++ [("length", VNumber (Z.of_nat (String.length s)))])%list
  | VFunction _ _ => Return (functionProperties object)
  | _ => Return []
  end.

(** [for (const [key, val] of entries) result[key] = convert(val)] *)
Fixpoint assign_converted (convert : value -> outcome value)
    (es : list (string * value)) (result : list (string * value))
  : outcome (list (string * value)) :=
  match es with
  | [] => Return result
  | (key, val) :: es' =>
      do r <- convert val; assign_converted convert es' (set_prop key r result)
  end.

(** [value.map(item => convert(item))]: holes are skipped and stay holes. *)
Definition map_items (convert : value -> outcome value) (items : list (option value))
  : outcome (list (option value)) :=
  traverse (fun item => match item with
                        | Some v => do r <- convert v; Return (Some r)
                        | None => Return None
                        end) items.

(** The body of [convertToTypedPlainObject], over the conversion of a
    property value. *)
Definition typedPlainObject `{Host} (convert : value -> outcome value) (o : options)
    (object : value) (convertValues : bool) : outcome value :=
  do own <- ownProperties object;
  do es <- traverse (fun kv => if convertValues
                               then do r <- convert kv.2; Return (kv.1, r)
                               else Return kv) own;
  let plainObject := fromEntries es in
  match constructor_of object with
  | Some c => Return (VObject [CObject]
                        (set_prop (constructorKey o) (VString (ctor_name c)) plainObject))
  | None => Throw "TypeError: Cannot read properties of undefined (reading 'name')"
  end.

(** ** Outbound conversion *)

(** [if (typeof value === "function") switch (this.options.functions) {...}]:
    the switch has no [default], an unlisted mode falls out of the [if]. *)
Definition functionCase (o : options) (v : value) : option (outcome value) :=
  match v with
  | VFunction name source =>
      if decide (functions o = "convert") then
        Some (Return (VObject [CObject]
                        (fromEntries [(constructorKey o, VString "Function");
                                      ("name", VString name);
                                      ("string", VString source)])))
      else if decide (functions o = "omit") then Some (Return VUndefined)
      else if decide (functions o = "error")
      then Some (Throw "Firestore can't handle functions")
      else None
  | _ => None
  end.

(** The built-in cases of [convertValueToFirestore], below the custom
    converters; [self] is [this.convertValueToFirestore]. *)
Definition toFirestoreCases `{Host} (self : value -> bool -> outcome value)
    (o : options) (v : value) (insideArray : bool) : outcome value :=
  match v with
  (* Case: null *)
  | VNull => Return VNull
  (* Case: undefined *)
  | VUndefined =>
      if decide (undefinedValues o = "omit") then Return VUndefined
      else if decide (undefinedValues o = "null") then Return VNull
      else Throw ("Invalid value for undefinedValues: " +:+ undefinedValues o)
  (* Cases: number, boolean, string, bigint, symbol *)
  | VNumber _ | VBool _ | VString _ | VBigInt _ => Return v
  | VSymbol description => Return (VString (symbol_toString description))
  | _ =>
  (* Case: Firestore types *)
  if bool_decide (constructorName v ∈ Some <$> firestore_types) then Return v
  (* Case: Date *)
  else if instanceof v CDate then Return v
  else
  (* Case: Function *)
  match functionCase o v with
  | Some r => r
  | None =>
  match v with
  (* Case: Array *)
  | VArray items _ =>
      if insideArray then
        if decide (multidimensionalArrays o = "convert")
        then typedPlainObject (fun x => self x false) o v true
        else if decide (multidimensionalArrays o = "omit") then Return VUndefined
        else if decide (multidimensionalArrays o = "error")
        then Throw "Firestore can't handle multi-dimensional arrays"
        else Throw ("Invalid value for multidimensionalArrays: "
                    +:+ multidimensionalArrays o)
      else
        do rs <- map_items (fun item => self item true) items;
        Return (VArray rs [])
  | _ =>
  (* Case: Plain object *)
  if decide (constructor_of v = Some CObject) then
    do es <- entries v;
    do result <- assign_converted (fun val => self val false) es [];
    Return (VObject [CObject] result)
  (* Case: Class instance *)
  else if decide (typeof v = "object") then
    typedPlainObject (fun x => self x false) o v true
  (* Case: unknown *)
  else if decide (fallback o = "return") then Return v
  else if decide (fallback o = "omit") then Return VUndefined
  else if decide (fallback o = "error")
  then Throw ("Can't convert value to Firestore: " +:+ template v)
  else Throw ("Invalid value for fallback: " +:+ fallback o)
  end
  end
  end.

(** [convertValueToFirestore(value, insideArray = false)] *)
Fixpoint convertValueToFirestore `{Host} (fuel : nat) (o : options) (v : value)
    (insideArray : bool) {struct fuel} : outcome value :=
  match fuel with
  | 0 => Overflow
  | S fuel =>
    (* Case: custom converter *)
    custom (toFirestoreConverters o) (typeof v) v (
    custom_named (toFirestoreConverters o) (constructorName v) v (
    toFirestoreCases (convertValueToFirestore fuel o) o v insideArray))
  end.

(** [convertToTypedPlainObject(object, convertValues = true)] *)
Definition convertToTypedPlainObject `{Host} (fuel : nat) (o : options)
    (object : value) (convertValues : bool) : outcome value :=
  typedPlainObject (fun x => convertValueToFirestore fuel o x false) o object convertValues.

(** [toFirestore(modelObject)] *)
Definition toFirestore `{Host} (fuel : nat) (o : options) (modelObject : value)
  : outcome value :=
  convertValueToFirestore fuel o modelObject false.

(** ** Inbound conversion *)

(** [items[i] = v]: the array grows by holes up to index [i]. *)
Definition set_index (i : nat) (v : value) (items : list (option value))
  : list (option value) :=
  if decide (i < length items) then <[i := Some v]> items
  else (items ++ replicate (i - length items) None ++ [Some v])%list.

(** [items.length = n] *)
Definition set_length (n : nat) (items : list (option value)) : list (option value) :=
  (take n items ++ replicate (n - length items) None)%list.

(** [result[key] = v] on an array [result]. *)
Definition array_assign `{Host} (key : string) (v : value)
    (result : list (option value) * list (string * value))
  : outcome (list (option value) * list (string * value)) :=
  match index_of_key key with
  | Some i => Return (set_index i v result.1, result.2)
  | None =>
      if decide (key = "length") then
        match v with
        | VNumber n =>
            if decide (0 <= n < 4294967296)%Z
            then Return (set_length (Z.to_nat n) result.1, result.2)
            else Throw "RangeError: Invalid array length"
        | _ => do n <- coerceLength v; Return (set_length n result.1, result.2)
        end
      else Return (result.1, set_prop key v result.2)
  end.

(** [for (const [key, val] of entries) { if (key === constructorKey) continue;
      result[key] = convert(val) }] on an array [result]. *)
Fixpoint assign_items `{Host} (convert : value -> outcome value) (skip : string)
    (es : list (string * value)) (result : list (option value) * list (string * value))
  : outcome (list (option value) * list (string * value)) :=
  match es with
  | [] => Return result
  | (key, val) :: es' =>
      if decide (key = skip) then assign_items convert skip es' result
      else do r <- convert val;
           do result' <- array_assign key r result;
           assign_items convert skip es' result'
  end.

(** The built-in cases of [convertValueFromFirestore], below the custom
    converters; [self] is [this.convertValueFromFirestore]. *)
Definition fromFirestoreCases `{Host} (self : value -> outcome value)
    (o : options) (v : value) : outcome value :=
  (* Case: Timestamp *)
  if decide (constructorName v = Some "Timestamp") then toDate v
  else
  match v with
  (* Case: Array *)
  | VArray items _ =>
      do rs <- map_items self items;
      Return (VArray rs [])
  | _ =>
  (* Case: converted Arrays *)
  if bool_decide (multidimensionalArrays o = "convert")
     && tagged v (constructorKey o) "Array" then
    do es <- entries v;
    do result <- assign_items self (constructorKey o) es ([], []);
    Return (VArray result.1 result.2)
  (* Case: converted Functions *)
  else if bool_decide (functions o = "convert")
          && tagged v (constructorKey o) "Function" then
    evalReturn (default VUndefined (get v "string"))
  (* Case: Objects *)
  else if decide (typeof v = "object") then
    do es <- entries v;
    do result <- assign_converted self es [];
    Return (VObject [CObject] result)
  else Return v
  end.

(** [convertValueFromFirestore(value)] *)
Fixpoint convertValueFromFirestore `{Host} (fuel : nat) (o : options) (v : value)
    {struct fuel} : outcome value :=
  match fuel with
  | 0 => Overflow
  | S fuel =>
    (* Case: custom converter *)
    custom (fromFirestoreConverters o) (typeof v) v (
    custom_named (fromFirestoreConverters o) (constructorName v) v (
    fromFirestoreCases (convertValueFromFirestore fuel o) o v))
  end.

(** [fromFirestore(snapshot, options)], over the value [snapshot.data(options)]
    delivers. *)
Definition fromFirestore `{Host} (fuel : nat) (o : options) (data : value)
  : outcome value :=
  convertValueFromFirestore fuel o data.

(** ** [isInstanceOf] of [src/util.js] *)

(** [Object.getPrototypeOf(object)] and up: the constructors along the chain. *)
Definition prototypes (v : value) : list ctor :=
  match v with
  | VUndefined | VNull => []
  | VObject protos _ => protos
  | VBool _ => [CClass "Boolean"; CObject]
  | VNumber _ => [CClass "Number"; CObject]
  | VString _ => [CClass "String"; CObject]
  | VBigInt _ => [CClass "BigInt"; CObject]
  | VSymbol _ => [CClass "Symbol"; CObject]
  | VFunction _ _ => [CClass "Function"; CObject]
  | VArray _ _ => [CClass "Array"; CObject]
  end.

(** The loop [while (proto) { ...; proto = Object.getPrototypeOf(proto) }]. *)
Fixpoint walk (chain : list ctor) (type : string) : bool :=
  match chain with
  | [] => false
  | c :: chain' => if decide (ctor_name c = type) then true else walk chain' type
  end.

Definition isInstanceOf (object : value) (type : string) : bool :=
  match object with
  | VUndefined | VNull => false
  | _ => walk (prototypes object) type
  end.

(** ** Measures and shapes of values *)

(** The nesting depth of a value: the conversions of a value of depth [d]
    need [d + 1] frames. *)
Fixpoint depth (v : value) : nat :=
  match v with
  | VArray items extra =>
      S (max (list_max ((fun item => match item with
                                     | Some x => depth x
                                     | None => 0
                                     end) <$> items))
             (list_max ((fun kv => depth kv.2) <$> extra)))
  | VObject _ props => S (list_max ((fun kv => depth kv.2) <$> props))
  | _ => 0
  end.

(** Primitive scalars: number, boolean, string, bigint. *)
Definition scalar (v : value) : bool :=
  match v with
  | VBool _ | VNumber _ | VString _ | VBigInt _ => true
  | _ => false
  end.

(** The keys of ordinary data properties: not [constructor], not [__proto__]. *)
Definition ordinary_key (key : string) : bool :=
  bool_decide (key ∉ ["constructor"; "__proto__"]).

(** Plain data: scalars, single-level arrays (no array as an element, no
    extra property) and object literals with pairwise distinct ordinary keys. *)
Fixpoint plain_data (v : value) : bool :=
  match v with
  | VBool _ | VNumber _ | VString _ | VBigInt _ => true
  | VArray items extra =>
      forallb (fun item => match item with
                           | Some x => negb (isArray x) && plain_data x
                           | None => true
                           end) items
      && bool_decide (extra = [])
  | VObject protos props =>
      bool_decide (protos = [CObject])
      && bool_decide (NoDup props.*1)
      && forallb (fun kv => ordinary_key kv.1 && plain_data kv.2) props
  | _ => false
  end.

(** No object inside [v] carries the tag [tag] under [key]. *)
Fixpoint untagged (key tag : string) (v : value) : bool :=
  match v with
  | VArray items _ =>
      forallb (fun item => match item with
                           | Some x => untagged key tag x
                           | None => true
                           end) items
  | VObject _ props =>
      negb (tagged v key tag) && forallb (fun kv => untagged key tag kv.2) props
  | _ => true
  end.

(** The values outbound conversion hands back as they are without looking
    inside: the store's own types (by constructor name) and dates. *)
Definition passes_through (v : value) : bool :=
  bool_decide (constructorName v ∈ Some <$> firestore_types) || instanceof v CDate.



(** Every object inside [v] has a prototype. *)
Fixpoint prototyped (v : value) : bool :=
  match v with
  | VArray items extra =>
      forallb (fun item => match item with
                           | Some x => prototyped x
                           | None => true
                           end) items
      && forallb (fun kv => prototyped kv.2) extra
  | VObject protos props =>
      negb (bool_decide (protos = []))
      && forallb (fun kv => prototyped kv.2) props
  | _ => true
  end.

(** The names of the members of [Object.prototype]: [name in table] holds for
    them whatever the table is. *)
Definition object_prototype_members : list string :=
  ["constructor"; "__defineGetter__"; "__defineSetter__"; "hasOwnProperty";
   "__lookupGetter__"; "__lookupSetter__"; "isPrototypeOf";
   "propertyIsEnumerable"; "toString"; "valueOf"; "__proto__"; "toLocaleString"].

(** The values the embedding describes as the source treats them: at every
    depth, the own keys of an object, and of an array besides its elements,
    are pairwise distinct and are neither [constructor] nor [__proto__], and
    the nearest class of an object is not named like a member of
    [Object.prototype]. *)
Fixpoint ordinary (v : value) : bool :=
  match v with
  | VArray items extra =>
      forallb (fun item => match item with
                           | Some x => ordinary x
                           | None => true
                           end) items
      && bool_decide (NoDup extra.*1)
      && forallb (fun kv => ordinary_key kv.1 && ordinary kv.2) extra
  | VObject protos props =>
      bool_decide (ctor_name <$> head protos ∉ Some <$> object_prototype_members)
      && bool_decide (NoDup props.*1)
      && forallb (fun kv => ordinary_key kv.1 && ordinary kv.2) props
  | _ => true
  end.




(** Every converter of [table] that matches [v] (under its type tag, under its
    constructor name) returns an instance of [ContinueConversion]. *)
Definition declines (table : gmap string converter) (v : value) : Prop :=
  forall key f, (key = typeof v \/ (constructorName v = Some key /\ key <> "")) ->
    table !! key = Some f -> exists c, f v = Return c /\ is_continue c = true.


(** The slot-by-slot relation between an array and its image under [map]. *)
Definition mapped (f : value -> outcome value) (item r : option value) : Prop :=
  match item, r with
  | Some x, Some y => f x = Return y
  | None, None => True
  | _, _ => False
  end.

(** ** Example data *)

(** A runtime none of whose services is available. *)
Definition bare_host : Host := {|
  toDate _ := Throw "TypeError: value.toDate is not a function";
  evalReturn _ := Throw "SyntaxError";
  coerceLength _ := Throw "RangeError: Invalid array length";
  functionProperties _ := [];
|}.

(** [new ContinueConversion()] *)
Definition continue_marker : value := VObject [CContinueConversion; CObject] [].

Definition numbers (ns : list Z) : value :=
  VArray ((fun n => Some (VNumber n)) <$> ns) [].

(** [[[1, 2], [3, 4]]] *)
Definition nested_example : value :=
  VArray [Some (numbers [1; 2]%Z); Some (numbers [3; 4]%Z)] [].

(** The typed plain object of the two-element array [[a, b]]. *)
Definition typed_pair (key : string) (a b : Z) : value :=
  VObject [CObject]
    [("0", VNumber a); ("1", VNumber b); ("length", VNumber 2); (key, VString "Array")].

(** [new Point(1, 2)] for [class Point { constructor(x, y) { this.x = x; this.y = y } }] *)
Definition point : value :=
  VObject [CClass "Point"; CObject] [("x", VNumber 1); ("y", VNumber 2)].

(** [{x: 1, y: 2, _constructor: "Point"}] *)
Definition point_record : value :=
  VObject [CObject] [("x", VNumber 1); ("y", VNumber 2); ("_constructor", VString "Point")].

(** [new ServerTimestampTransform()] for
    [class FieldValue { }; class ServerTimestampTransform extends FieldValue { }] *)
Definition server_timestamp : value :=
  VObject [CClass "ServerTimestampTransform"; CClass "FieldValue"; CObject] [].

(** [new FirestoreDataConverter({ toFirestoreConverters: { Number: _ => "x" } })] *)
Definition number_hook_options : options :=
  FirestoreDataConverter
    (Build_user_options (Some {[ "Number" := fun _ => Return (VString "x") ]})
       None None None None None None None).

(** [new FirestoreDataConverter({ functions: "encode" })]: a mode the source
    does not list. *)
Definition unlisted_functions_options : options :=
  FirestoreDataConverter
    (Build_user_options None None None None (Some "encode") None None None).

(** [function test(a) { }] *)
Definition test_function : value := VFunction "test" "function test(a) { }".

(** [new FirestoreDataConverter({ multidimensionalArrays: "error" })] *)
Definition error_options : options :=
  FirestoreDataConverter
    (Build_user_options None None None (Some "error") None None None None).


(** [new FirestoreDataConverter({ undefinedValues: "null" })] *)
Definition null_options : options :=
  FirestoreDataConverter
    (Build_user_options None None (Some "null") None None None None None).

(** [new FirestoreDataConverter({ toFirestoreConverters: {
      object: _ => new ContinueConversion(), number: _ => "one" } })] *)
Definition number_hook_after_continue : options :=
  FirestoreDataConverter
    (Build_user_options
       (Some (<["object" := fun _ => Return continue_marker]>
                {[ "number" := fun _ => Return (VString "one") ]}))
       None None None None None None None).

(** [{ a: undefined }] *)
Definition undefined_field : value := VObject [CObject] [("a", VUndefined)].

(** [{ _constructor: "Array" }] *)
Definition array_tag_only : value := VObject [CObject] [("_constructor", VString "Array")].


(** The same converter with both custom tables emptied. *)
Definition without_converters (o : options) : options := {|
  toFirestoreConverters := ∅;
  fromFirestoreConverters := ∅;
  undefinedValues := undefinedValues o;
  multidimensionalArrays := multidimensionalArrays o;
  functions := functions o;
  classInstances := classInstances o;
  fallback := fallback o;
  constructorKey := constructorKey o;
|}.

(** The policy fields of two option records agree. *)
Definition same_policy (o o' : options) : Prop :=
  undefinedValues o = undefinedValues o'
  /\ multidimensionalArrays o = multidimensionalArrays o'
  /\ functions o = functions o'
  /\ fallback o = fallback o'
  /\ constructorKey o = constructorKey o'.

(** * Properties *)

#[local] Arguments convertValueToFirestore : simpl never.
#[local] Arguments convertValueFromFirestore : simpl never.

(** ** The outcome monad *)

Lemma bind_Return {A B : Type} (m : outcome A) (k : A -> outcome B) (b : B) :
  bind m k = Return b -> exists a, m = Return a /\ k a = Return b.
Proof. destruct m; simpl; intros E; try discriminate. eauto. Qed.

Lemma custom_absent (table : gmap string converter) key v r :
  table !! key = None -> custom table key v r = r.
Proof. unfold custom. intros ->. reflexivity. Qed.

Lemma custom_empty key v r : custom ∅ key v r = r.
Proof. apply custom_absent, lookup_empty. Qed.

Lemma custom_named_empty name v r : custom_named ∅ name v r = r.
Proof.
  unfold custom_named. destruct name as [n|]; [|reflexivity].
  destruct (decide (n = "")); [reflexivity|apply custom_empty].
Qed.

Lemma custom_named_absent (table : gmap string converter) name v r :
  (forall n, name = Some n -> table !! n = None) -> custom_named table name v r = r.
Proof.
  unfold custom_named. intros E. destruct name as [n|]; [|reflexivity].
  destruct (decide (n = "")); [reflexivity|]. apply custom_absent. auto.
Qed.

(** ** Unfolding one frame *)

Lemma convertValueToFirestore_S `{Host} fuel o v insideArray :
  convertValueToFirestore (S fuel) o v insideArray
  = custom (toFirestoreConverters o) (typeof v) v
      (custom_named (toFirestoreConverters o) (constructorName v) v
         (toFirestoreCases (convertValueToFirestore fuel o) o v insideArray)).
Proof. reflexivity. Qed.

Lemma convertValueFromFirestore_S `{Host} fuel o v :
  convertValueFromFirestore (S fuel) o v
  = custom (fromFirestoreConverters o) (typeof v) v
      (custom_named (fromFirestoreConverters o) (constructorName v) v
         (fromFirestoreCases (convertValueFromFirestore fuel o) o v)).
Proof. reflexivity. Qed.

(** Without custom converters a frame is the built-in dispatch. *)
Lemma convertValueToFirestore_plain `{Host} fuel o v insideArray :
  toFirestoreConverters o = ∅ ->
  convertValueToFirestore (S fuel) o v insideArray
  = toFirestoreCases (convertValueToFirestore fuel o) o v insideArray.
Proof.
  intros E. rewrite convertValueToFirestore_S, E.
  by rewrite custom_empty, custom_named_empty.
Qed.

Lemma convertValueFromFirestore_plain `{Host} fuel o v :
  fromFirestoreConverters o = ∅ ->
  convertValueFromFirestore (S fuel) o v
  = fromFirestoreCases (convertValueFromFirestore fuel o) o v.
Proof.
  intros E. rewrite convertValueFromFirestore_S, E.
  by rewrite custom_empty, custom_named_empty.
Qed.

(** ** Scalars *)

Lemma char_entries_lookup (s : string) (i j : nat) (kv : string * value) :
  char_entries i s !! j = Some kv -> exists c, kv.2 = VString (String c EmptyString).
Proof.
  revert i j. induction s as [|c s IH]; intros i j; simpl; [done|].
  destruct j as [|j]; simpl.
  - intros [= <-]. eauto.
  - apply IH.
Qed.

Lemma tagged_scalar (v : value) (key tag : string) :
  scalar v = true -> String.length tag <> 1 -> tagged v key tag = false.
Proof.
  intros Hs Htag. destruct v; try discriminate; try reflexivity.
  unfold tagged, get.
  destruct (index_of_key key) as [i|].
  - destruct (char_entries 0 s !! i) as [kv|] eqn:E; [|reflexivity].
    apply char_entries_lookup in E as [c Hc]. simpl. rewrite Hc.
    apply bool_decide_eq_false. intros <-. apply Htag. reflexivity.
  - destruct (decide (key = "length")); reflexivity.
Qed.

Lemma toFirestoreCases_scalar `{Host} self o v insideArray :
  scalar v = true -> toFirestoreCases self o v insideArray = Return v.
Proof. destruct v; try discriminate; reflexivity. Qed.

Lemma fromFirestoreCases_scalar `{Host} self o v :
  scalar v = true -> fromFirestoreCases self o v = Return v.
Proof.
  intros Hs. unfold fromFirestoreCases.
  rewrite !(tagged_scalar v) by (done || (simpl; lia)).
  rewrite !andb_false_r.
  destruct v; try discriminate; reflexivity.
Qed.

(** C9, as stated: a scalar passes through both conversions unchanged as soon
    as no custom converter is registered for its type tag.  This fails: the
    second lookup of the source, under [value?.constructor?.name], finds a
    converter registered as [Number] for the number [1]. *)
Lemma scalar_identity_needs_constructor_name :
  scalar (VNumber 1) = true
  /\ toFirestoreConverters number_hook_options !! typeof (VNumber 1) = None
  /\ fromFirestoreConverters number_hook_options !! typeof (VNumber 1) = None
  /\ @convertValueToFirestore bare_host 1 number_hook_options (VNumber 1) false
     = Return (VString "x")
  /\ @convertValueToFirestore bare_host 1 number_hook_options (VNumber 1) false
     <> Return (VNumber 1).
Proof. vm_compute. repeat split; congruence. Qed.

(** C9, amended: a primitive scalar (number, boolean, string, bigint) is
    returned unchanged by the outbound and by the inbound conversion when no
    custom converter is registered for its type tag nor for its constructor
    name ([Number], [Boolean], [String], [BigInt]). *)
Theorem scalar_identity `{Host} (o : options) (v : value) (fuel : nat) (insideArray : bool) :
  scalar v = true ->
  toFirestoreConverters o !! typeof v = None ->
  (forall n, constructorName v = Some n -> toFirestoreConverters o !! n = None) ->
  fromFirestoreConverters o !! typeof v = None ->
  (forall n, constructorName v = Some n -> fromFirestoreConverters o !! n = None) ->
  convertValueToFirestore (S fuel) o v insideArray = Return v
  /\ convertValueFromFirestore (S fuel) o v = Return v.
Proof.
  intros Hs Ht Htn Hf Hfn. split.
  - rewrite convertValueToFirestore_S, custom_absent, custom_named_absent by done.
    by apply toFirestoreCases_scalar.
  - rewrite convertValueFromFirestore_S, custom_absent, custom_named_absent by done.
    by apply fromFirestoreCases_scalar.
Qed.

Lemma scalar_identity_witness :
  @convertValueToFirestore bare_host 1 default_options (VString "poopy") true
  = Return (VString "poopy")
  /\ @convertValueFromFirestore bare_host 1 default_options (VString "poopy")
     = Return (VString "poopy").
Proof.
  apply (@scalar_identity bare_host default_options (VString "poopy") 0 true).
  - reflexivity.
  - vm_compute; reflexivity.
  - intros n _; vm_compute; reflexivity.
  - vm_compute; reflexivity.
  - intros n _; vm_compute; reflexivity.
Defined.

Lemma convertValueFromFirestore_scalar `{Host} fuel o v :
  fromFirestoreConverters o = ∅ -> scalar v = true ->
  convertValueFromFirestore (S fuel) o v = Return v.
Proof.
  intros E Hs. rewrite convertValueFromFirestore_plain by done.
  by apply fromFirestoreCases_scalar.
Qed.

Lemma convertValueToFirestore_scalar `{Host} fuel o v insideArray :
  toFirestoreConverters o = ∅ -> scalar v = true ->
  convertValueToFirestore (S fuel) o v insideArray = Return v.
Proof.
  intros E Hs. rewrite convertValueToFirestore_plain by done.
  by apply toFirestoreCases_scalar.
Qed.

(** ** Worked conversions *)

Lemma array_assign_length `{Host} (n : Z) items extra :
  (0 <= n < 4294967296)%Z ->
  array_assign "length" (VNumber n) (items, extra)
  = Return (set_length (Z.to_nat n) items, extra).
Proof.
  intros Hn. unfold array_assign.
  change (index_of_key "length") with (@None nat). simpl.
  by rewrite decide_True.
Qed.

(** C2: with [multidimensionalArrays = "convert"] and no custom converters,
    [[[1, 2], [3, 4]]] is converted outbound to an array of two typed plain
    objects, tagged ["Array"] under the constructor key, with the elements
    under the keys ["0"] and ["1"] (and the length under ["length"]); inbound
    conversion of that array gives [[[1, 2], [3, 4]]] back.  The constructor
    key is any key that is not one of the own keys of the inner arrays. *)
Theorem nested_array_round_trip `{Host} (o : options) (fuel : nat) :
  multidimensionalArrays o = "convert" ->
  toFirestoreConverters o = ∅ ->
  fromFirestoreConverters o = ∅ ->
  constructorKey o ∉ ["0"; "1"; "length"; "__proto__"] ->
  convertValueToFirestore (3 + fuel) o nested_example false
  = Return (VArray [Some (typed_pair (constructorKey o) 1 2);
                    Some (typed_pair (constructorKey o) 3 4)] [])
  /\ convertValueFromFirestore (3 + fuel) o
       (VArray [Some (typed_pair (constructorKey o) 1 2);
                Some (typed_pair (constructorKey o) 3 4)] [])
     = Return nested_example.
Proof.
  intros Hm Ht Hf Hk.
  assert (K0 : "0" <> constructorKey o) by (intros E; apply Hk; rewrite <- E; set_solver).
  assert (K1 : "1" <> constructorKey o) by (intros E; apply Hk; rewrite <- E; set_solver).
  assert (K2 : "length" <> constructorKey o)
    by (intros E; apply Hk; rewrite <- E; set_solver).
  assert (KK : forall A (a b : A),
             (if decide (constructorKey o = constructorKey o) then a else b) = a)
    by (intros; by rewrite decide_True).
  change (3 + fuel) with (S (S (S fuel))). split.
  - rewrite convertValueToFirestore_plain by done.
    unfold toFirestoreCases at 1, map_items. simpl.
    rewrite !(convertValueToFirestore_plain (S fuel)) by done.
    unfold toFirestoreCases, typedPlainObject, fromEntries. rewrite Hm. simpl.
    rewrite !convertValueToFirestore_scalar by done. simpl.
    rewrite !(decide_False (P := "0" = _)), !(decide_False (P := "1" = _)),
      !(decide_False (P := "length" = _)) by done.
    reflexivity.
  - rewrite convertValueFromFirestore_plain by done.
    unfold fromFirestoreCases at 1, map_items. simpl.
    rewrite !(convertValueFromFirestore_plain (S fuel)) by done.
    unfold fromFirestoreCases, tagged. rewrite Hm. simpl.
    rewrite !(decide_False (P := "0" = _)), !(decide_False (P := "1" = _)),
      !(decide_False (P := "length" = _)), !KK by done.
    simpl. rewrite !convertValueFromFirestore_scalar by done.
    repeat first
      [ progress cbn [bind]
      | rewrite (decide_False (P := "0" = _)) by done
      | rewrite (decide_False (P := "1" = _)) by done
      | rewrite (decide_False (P := "length" = _)) by done
      | rewrite array_assign_length by lia
      | rewrite KK ].
    vm_compute. reflexivity.
Qed.

Lemma nested_array_round_trip_witness :
  @convertValueToFirestore bare_host 3 default_options nested_example false
  = Return (VArray [Some (typed_pair "_constructor" 1 2);
                    Some (typed_pair "_constructor" 3 4)] [])
  /\ @convertValueFromFirestore bare_host 3 default_options
       (VArray [Some (typed_pair "_constructor" 1 2);
                Some (typed_pair "_constructor" 3 4)] [])
     = Return nested_example.
Proof.
  apply (@nested_array_round_trip bare_host default_options 0).
  - reflexivity.
  - reflexivity.
  - reflexivity.
  - apply (bool_decide_unpack _). vm_compute. exact I.
Defined.

(** C7: with the default options [new Point(1, 2)] is converted outbound to
    the plain object [{x: 1, y: 2, _constructor: "Point"}]; inbound conversion
    of that object returns the same plain object, tag key included, which is
    not an instance of [Point]. *)
Theorem point_is_not_rebuilt `{Host} (fuel : nat) :
  convertValueToFirestore (2 + fuel) default_options point false = Return point_record
  /\ convertValueFromFirestore (2 + fuel) default_options point_record
     = Return point_record
  /\ constructor_of point_record = Some CObject
  /\ instanceof point_record (CClass "Point") = false
  /\ get point_record "_constructor" = Some (VString "Point").
Proof. repeat split; vm_compute; reflexivity. Qed.


(** ** The store's own types *)

(** A value whose nearest constructor is named as one of the store's types is
    handed back as it is. *)
Lemma firestore_type_unchanged `{Host} (o : options) (v : value) (fuel : nat)
    (insideArray : bool) :
  toFirestoreConverters o = ∅ ->
  typeof v = "object" ->
  constructorName v ∈ Some <$> firestore_types ->
  convertValueToFirestore (S fuel) o v insideArray = Return v.
Proof.
  intros Ht Hty Hn. rewrite convertValueToFirestore_plain by done.
  unfold toFirestoreCases. rewrite bool_decide_eq_true_2 by done.
  destruct v; try discriminate; reflexivity.
Qed.

(** C4, at [new ServerTimestampTransform()] with
    [class ServerTimestampTransform extends FieldValue]: the prototype-chain
    walk of [isInstanceOf] finds [FieldValue], but outbound conversion
    compares the nearest constructor name only and converts the instance to a
    typed plain object. *)
Theorem subclass_of_FieldValue_is_converted `{Host} (fuel : nat) :
  isInstanceOf server_timestamp "FieldValue" = true
  /\ constructorName server_timestamp = Some "ServerTimestampTransform"
  /\ convertValueToFirestore (1 + fuel) default_options server_timestamp false
     = Return (VObject [CObject] [("_constructor", VString "ServerTimestampTransform")]).
Proof. repeat split; vm_compute; reflexivity. Qed.

(** ** Unlisted policy modes *)

(** Three of the four policy switches end in a [default] that throws. *)
Lemma unlisted_undefinedValues_throws `{Host} (o : options) (fuel : nat) (insideArray : bool) :
  toFirestoreConverters o = ∅ ->
  undefinedValues o ∉ ["omit"; "null"] ->
  convertValueToFirestore (S fuel) o VUndefined insideArray
  = Throw ("Invalid value for undefinedValues: " +:+ undefinedValues o).
Proof.
  intros Ht Hu. rewrite convertValueToFirestore_plain by done. simpl.
  rewrite !decide_False; [done| |]; intros E; apply Hu; rewrite E; set_solver.
Qed.

Lemma unlisted_multidimensionalArrays_throws `{Host} (o : options) (fuel : nat)
    (items : list (option value)) (extra : list (string * value)) :
  toFirestoreConverters o = ∅ ->
  multidimensionalArrays o ∉ ["convert"; "omit"; "error"] ->
  convertValueToFirestore (S fuel) o (VArray items extra) true
  = Throw ("Invalid value for multidimensionalArrays: " +:+ multidimensionalArrays o).
Proof.
  intros Ht Hu. rewrite convertValueToFirestore_plain by done. simpl.
  rewrite !decide_False; [done| | |]; intros E; apply Hu; rewrite E; set_solver.
Qed.

Lemma unlisted_fallback_throws `{Host} (o : options) (fuel : nat) (name source : string)
    (insideArray : bool) :
  toFirestoreConverters o = ∅ ->
  functions o ∉ ["convert"; "omit"; "error"] ->
  fallback o ∉ ["return"; "omit"; "error"] ->
  convertValueToFirestore (S fuel) o (VFunction name source) insideArray
  = Throw ("Invalid value for fallback: " +:+ fallback o).
Proof.
  intros Ht Hf Hu. rewrite convertValueToFirestore_plain by done.
  unfold toFirestoreCases, functionCase. simpl.
  rewrite !(decide_False (P := functions o = _))
    by (intros E; apply Hf; rewrite E; set_solver).
  rewrite !(decide_False (P := fallback o = _))
    by (intros E; apply Hu; rewrite E; set_solver).
  reflexivity.
Qed.

(** C6, at [functions: "encode"] and [function test(a) { }]: the switch on
    [this.options.functions] has no [default], so the function falls through
    to the last case and is returned under [fallback = "return"]; nothing is
    thrown. *)
Theorem unlisted_functions_mode_returns `{Host} (fuel : nat) (insideArray : bool) :
  (functions unlisted_functions_options ∉ ["convert"; "omit"; "error"])
  /\ convertValueToFirestore (1 + fuel) unlisted_functions_options test_function insideArray
     = Return test_function.
Proof.
  split; [|vm_compute; reflexivity].
  change (functions unlisted_functions_options) with "encode".
  rewrite !not_elem_of_cons. repeat split; try discriminate. apply not_elem_of_nil.
Qed.

(** ** Loops over elements and entries *)






Lemma traverse_Return {A B : Type} (g : A -> outcome B) (l : list A) :
  (forall x, x ∈ l -> exists y, g x = Return y) ->
  exists ys, traverse g l = Return ys /\ Forall2 (fun x y => g x = Return y) l ys.
Proof.
  induction l as [|x l IH]; intros Hl; simpl; [by exists []|].
  destruct (Hl x) as [y Hy]; [left|].
  destruct IH as (ys & Hys & Hall); [intros z Hz; apply Hl; by right|].
  exists (y :: ys). rewrite Hy, Hys. split; [done|]. by constructor.
Qed.

Lemma traverse_id {A : Type} (g : A -> outcome A) (l : list A) :
  (forall x, x ∈ l -> g x = Return x) -> traverse g l = Return l.
Proof.
  induction l as [|x l IH]; intros Hl; simpl; [done|].
  rewrite Hl by left. simpl. rewrite IH; [done|]. intros z Hz. apply Hl. by right.
Qed.

(** [value.map] *)

Lemma map_items_id (f : value -> outcome value) (items : list (option value)) :
  (forall x, Some x ∈ items -> f x = Return x) -> map_items f items = Return items.
Proof.
  intros Hf. apply traverse_id. intros [x|] Hx; [|done]. by rewrite Hf.
Qed.



Lemma map_items_Return (f : value -> outcome value) (items : list (option value)) :
  (forall x, Some x ∈ items -> exists y, f x = Return y) ->
  exists rs, map_items f items = Return rs /\ Forall2 (mapped f) items rs.
Proof.
  intros Hf.
  destruct (traverse_Return
              (fun item => match item with
                           | Some v => do r <- f v; Return (Some r)
                           | None => Return None
                           end) items) as (rs & Hrs & Hall).
  - intros [x|] Hx; [|by eexists]. destruct (Hf x Hx) as [y ->]. by eexists.
  - exists rs. split; [done|]. eapply Forall2_impl; [done|].
    intros [x|] r; simpl.
    + destruct (f x); simpl; [|done..]. by intros [= <-].
    + by intros [= <-].
Qed.

(** ** Arrays, outbound *)

Lemma toFirestoreCases_array `{Host} self o items extra insideArray :
  toFirestoreCases self o (VArray items extra) insideArray
  = if insideArray then
      if decide (multidimensionalArrays o = "convert")
      then typedPlainObject (fun x => self x false) o (VArray items extra) true
      else if decide (multidimensionalArrays o = "omit") then Return VUndefined
      else if decide (multidimensionalArrays o = "error")
      then Throw "Firestore can't handle multi-dimensional arrays"
      else Throw ("Invalid value for multidimensionalArrays: "
                  +:+ multidimensionalArrays o)
    else do rs <- map_items (fun item => self item true) items; Return (VArray rs []).
Proof. reflexivity. Qed.




(** ** Objects filled field by field *)

Lemma set_prop_fresh (key : string) (v : value) (ps : list (string * value)) :
  key ∉ ps.*1 -> set_prop key v ps = ps ++ [(key, v)].
Proof.
  induction ps as [|[k w] ps IH]; simpl; intros Hk; [done|].
  apply not_elem_of_cons in Hk as [Hne Hk].
  rewrite decide_False by done. by rewrite IH.
Qed.


Lemma assign_converted_id (f : value -> outcome value)
    (es acc : list (string * value)) :
  NoDup (acc.*1 ++ es.*1) ->
  (forall e, e ∈ es -> f e.2 = Return e.2) ->
  assign_converted f es acc = Return (acc ++ es).
Proof.
  revert acc. induction es as [|[k v] es IH]; intros acc Hnd Hf; simpl.
  - by rewrite app_nil_r.
  - pose proof (Hf (k, v) ltac:(left)) as Hkv. simpl in Hkv. rewrite Hkv. simpl.
    rewrite set_prop_fresh.
    + rewrite IH.
      * by rewrite <- app_assoc.
      * rewrite fmap_app, <- app_assoc. done.
      * intros e He. apply Hf. by right.
    + simpl in Hnd. apply NoDup_app in Hnd as (_ & Hnd & _).
      intros Hin. apply (Hnd k Hin). left.
Qed.

(** Field by field: the keys are kept and every value is the conversion of
    the value it replaces. *)
Lemma assign_converted_Return (f : value -> outcome value)
    (es acc : list (string * value)) :
  NoDup (acc.*1 ++ es.*1) ->
  (forall e, e ∈ es -> exists r, f e.2 = Return r) ->
  exists rs, assign_converted f es acc = Return (acc ++ rs)
             /\ Forall2 (fun e r => r.1 = e.1 /\ f e.2 = Return r.2) es rs.
Proof.
  revert acc. induction es as [|[k v] es IH]; intros acc Hnd Hf; simpl.
  - exists []. by rewrite app_nil_r.
  - destruct (Hf (k, v)) as [r Hr]; [left|]. simpl in Hr. rewrite Hr. simpl.
    rewrite set_prop_fresh.
    + destruct (IH (acc ++ [(k, r)])) as (rs & Hrs & Hall).
      * rewrite fmap_app, <- app_assoc. done.
      * intros e He. apply Hf. by right.
      * exists ((k, r) :: rs). rewrite Hrs, <- app_assoc. split; [done|].
        by constructor.
    + simpl in Hnd. apply NoDup_app in Hnd as (_ & Hnd & _).
      intros Hin. apply (Hnd k Hin). left.
Qed.

Lemma lookup_prop_Forall2 (f : value -> outcome value) (key : string) (v : value)
    (es rs : list (string * value)) :
  Forall2 (fun e r => r.1 = e.1 /\ f e.2 = Return r.2) es rs ->
  lookup_prop key es = Some v ->
  exists r, lookup_prop key rs = Some r /\ f v = Return r.
Proof.
  induction 1 as [|[k w] [k' r] es rs [Hk Hr] _ IH]; simpl; [done|].
  simpl in Hk, Hr. subst k'. destruct (decide (k = key)); [|done].
  intros [= <-]. eauto.
Qed.

Lemma lookup_prop_elem_of (key : string) (v : value) (ps : list (string * value)) :
  lookup_prop key ps = Some v -> (key, v) ∈ ps.
Proof.
  induction ps as [|[k w] ps IH]; simpl; [done|].
  destruct (decide (k = key)) as [->|].
  - intros [= ->]. left.
  - intros E. right. auto.
Qed.

(** ** Plain objects, outbound *)

Lemma toFirestoreCases_plain_object `{Host} self o props insideArray :
  toFirestoreCases self o (VObject [CObject] props) insideArray
  = do result <- assign_converted (fun val => self val false) props [];
    Return (VObject [CObject] result).
Proof. reflexivity. Qed.

(** C5, at [{ a: undefined }]: under [undefinedValues = "omit"] the typedef
    promises that the property is omitted, but the undefined field is
    converted to [undefined] and assigned by [result[key] = ...], so the
    result still owns the key [a], with the value [undefined].  Under
    [undefinedValues = "null"] the result owns [a] with the value [null], as
    the claim says. *)
Theorem undefined_field_keeps_its_key `{Host} (fuel : nat) (insideArray : bool) :
  undefinedValues default_options = "omit"
  /\ convertValueToFirestore (2 + fuel) default_options undefined_field insideArray
     = Return (VObject [CObject] [("a", VUndefined)])
  /\ entries (VObject [CObject] [("a", VUndefined)]) = Return [("a", VUndefined)]
  /\ get (VObject [CObject] [("a", VUndefined)]) "a" <> None
  /\ undefinedValues null_options = "null"
  /\ convertValueToFirestore (2 + fuel) null_options undefined_field insideArray
     = Return (VObject [CObject] [("a", VNull)]).
Proof.
  repeat split; try (vm_compute; reflexivity). discriminate.
Qed.

(** ** Depth *)

Lemma list_max_elem_of {A : Type} (f : A -> nat) (l : list A) (x : A) :
  x ∈ l -> f x <= list_max (f <$> l).
Proof.
  induction l as [|y l IH]; intros Hx; [by apply elem_of_nil in Hx|].
  change (list_max (f <$> (y :: l))) with (Nat.max (f y) (list_max (f <$> l))).
  apply elem_of_cons in Hx as [<-|Hx]; [apply Nat.le_max_l|].
  etrans; [by apply IH|apply Nat.le_max_r].
Qed.

Lemma depth_item (items : list (option value)) (extra : list (string * value)) (x : value) :
  Some x ∈ items -> depth x < depth (VArray items extra).
Proof.
  intros Hx. simpl.
  pose proof (list_max_elem_of
                (fun item => match item with Some x => depth x | None => 0 end)
                items (Some x) Hx) as Hle.
  simpl in Hle. lia.
Qed.

Lemma depth_extra (items : list (option value)) (extra : list (string * value))
    (e : string * value) :
  e ∈ extra -> depth e.2 < depth (VArray items extra).
Proof.
  intros He. simpl.
  pose proof (list_max_elem_of (fun kv => depth kv.2) extra e He) as Hle. lia.
Qed.

Lemma depth_prop (protos : list ctor) (props : list (string * value))
    (e : string * value) :
  e ∈ props -> depth e.2 < depth (VObject protos props).
Proof.
  intros He. simpl.
  pose proof (list_max_elem_of (fun kv => depth kv.2) props e He) as Hle. lia.
Qed.

Lemma forallb_elem_of {A : Type} (f : A -> bool) (l : list A) (x : A) :
  forallb f l = true -> x ∈ l -> f x = true.
Proof.
  intros Hall Hx. rewrite forallb_forall in Hall. apply Hall.
  by apply list_elem_of_In.
Qed.

(** ** Plain data *)

Section plain_data.
Context `{Host} (o : options).

Lemma plain_data_outbound (fuel : nat) (v : value) (insideArray : bool) :
  toFirestoreConverters o = ∅ ->
  depth v < fuel ->
  plain_data v = true ->
  (insideArray = true -> isArray v = false) ->
  convertValueToFirestore fuel o v insideArray = Return v.
Proof.
  intros Ht. revert v insideArray.
  induction fuel as [|fuel IH]; intros v insideArray Hd Hp Hin; [lia|].
  rewrite convertValueToFirestore_plain by done.
  destruct v as [| | | | | | | |items extra|protos props]; try discriminate;
    try reflexivity.
  - rewrite toFirestoreCases_array.
    destruct insideArray; [by specialize (Hin eq_refl)|].
    simpl in Hp. apply andb_true_iff in Hp as [Hitems Hextra].
    apply bool_decide_eq_true in Hextra as ->.
    rewrite map_items_id; [done|]. intros x Hx.
    pose proof (forallb_elem_of _ _ _ Hitems Hx) as Hx'. simpl in Hx'.
    apply andb_true_iff in Hx' as [Hna Hpx]. apply negb_true_iff in Hna.
    apply IH; [|done..].
    pose proof (depth_item items [] x Hx). lia.
  - simpl in Hp. apply andb_true_iff in Hp as [Hp Hprops].
    apply andb_true_iff in Hp as [Hprotos Hnd].
    apply bool_decide_eq_true in Hprotos as ->.
    apply bool_decide_eq_true in Hnd.
    rewrite toFirestoreCases_plain_object.
    rewrite assign_converted_id; [done|done|]. intros e He.
    pose proof (forallb_elem_of _ _ _ Hprops He) as He'. simpl in He'.
    apply andb_true_iff in He' as [_ Hpe].
    apply IH; [|done..].
    pose proof (depth_prop [CObject] props e He). lia.
Qed.

Lemma plain_data_inbound (fuel : nat) (v : value) :
  fromFirestoreConverters o = ∅ ->
  (multidimensionalArrays o = "convert" -> untagged (constructorKey o) "Array" v = true) ->
  (functions o = "convert" -> untagged (constructorKey o) "Function" v = true) ->
  depth v < fuel ->
  plain_data v = true ->
  convertValueFromFirestore fuel o v = Return v.
Proof.
  intros Hf. revert v.
  induction fuel as [|fuel IH]; intros v Harr Hfun Hd Hp; [lia|].
  rewrite convertValueFromFirestore_plain by done.
  destruct v as [| | | | | | | |items extra|protos props]; try discriminate;
    try (by apply fromFirestoreCases_scalar).
  - simpl in Hp. apply andb_true_iff in Hp as [Hitems Hextra].
    apply bool_decide_eq_true in Hextra as ->.
    unfold fromFirestoreCases. simpl.
    rewrite map_items_id; [done|]. intros x Hx.
    pose proof (forallb_elem_of _ _ _ Hitems Hx) as Hx'. simpl in Hx'.
    apply andb_true_iff in Hx' as [_ Hpx].
    apply IH; [| |pose proof (depth_item items [] x Hx); lia|done].
    + intros Hm. specialize (Harr Hm). simpl in Harr.
      apply (forallb_elem_of _ _ _ Harr Hx).
    + intros Hm. specialize (Hfun Hm). simpl in Hfun.
      apply (forallb_elem_of _ _ _ Hfun Hx).
  - simpl in Hp. apply andb_true_iff in Hp as [Hp Hprops].
    apply andb_true_iff in Hp as [Hprotos Hnd].
    apply bool_decide_eq_true in Hprotos as ->.
    apply bool_decide_eq_true in Hnd.
    unfold fromFirestoreCases. simpl.
    assert (bool_decide (multidimensionalArrays o = "convert")
            && tagged (VObject [CObject] props) (constructorKey o) "Array" = false)
      as ->.
    { case_bool_decide as Hm; [|done]. specialize (Harr Hm). simpl in Harr.
      apply andb_true_iff in Harr as [Harr _]. by apply negb_true_iff in Harr. }
    assert (bool_decide (functions o = "convert")
            && tagged (VObject [CObject] props) (constructorKey o) "Function" = false)
      as ->.
    { case_bool_decide as Hm; [|done]. specialize (Hfun Hm). simpl in Hfun.
      apply andb_true_iff in Hfun as [Hfun _]. by apply negb_true_iff in Hfun. }
    rewrite assign_converted_id; [done|done|]. intros e He.
    pose proof (forallb_elem_of _ _ _ Hprops He) as He'. simpl in He'.
    apply andb_true_iff in He' as [_ Hpe].
    apply IH; [| |pose proof (depth_prop [CObject] props e He); lia|done].
    + intros Hm. specialize (Harr Hm). simpl in Harr.
      apply andb_true_iff in Harr as [_ Harr].
      apply (forallb_elem_of _ _ _ Harr He).
    + intros Hm. specialize (Hfun Hm). simpl in Hfun.
      apply andb_true_iff in Hfun as [_ Hfun].
      apply (forallb_elem_of _ _ _ Hfun He).
Qed.
End plain_data.

(** C1, as stated: every plain object of scalars, single-level arrays and
    plain objects survives the round trip under the default options.  This
    fails for [{ _constructor: "Array" }]: outbound conversion leaves it as it
    is, and inbound conversion takes the field for the tag of a converted
    array and returns the empty array. *)
Lemma array_tag_collision :
  plain_data array_tag_only = true
  /\ constructor_of array_tag_only = Some CObject
  /\ @convertValueToFirestore bare_host 2 default_options array_tag_only false
     = Return array_tag_only
  /\ @convertValueFromFirestore bare_host 2 default_options array_tag_only
     = Return (VArray [] [])
  /\ (do r <- @convertValueToFirestore bare_host 2 default_options array_tag_only false;
      @convertValueFromFirestore bare_host 2 default_options r)
     <> Return array_tag_only.
Proof. repeat split; vm_compute; congruence. Qed.

(** C1, amended: under the default options (no custom converters), every
    plain data value, in particular every plain object, whose fields are
    recursively scalars, single-level arrays and plain objects, is returned
    by inbound conversion of its outbound conversion, provided that no object
    in it has the field [_constructor] with the value ["Array"], that no
    object in it has an own field called [constructor] or [__proto__], and
    that its arrays have no own property besides their elements
    ([plain_data] says the last two). *)
Theorem plain_data_round_trip `{Host} (v : value) (fuel : nat) :
  plain_data v = true ->
  untagged "_constructor" "Array" v = true ->
  (do r <- convertValueToFirestore (S (depth v) + fuel) default_options v false;
   convertValueFromFirestore (S (depth v) + fuel) default_options r)
  = Return v.
Proof.
  intros Hp Hu.
  rewrite plain_data_outbound; [|done|lia|done|done]. simpl.
  apply plain_data_inbound; [done|done|discriminate|lia|done].
Qed.

Lemma plain_data_round_trip_witness :
  (do r <- @convertValueToFirestore bare_host 3 default_options
             (VObject [CObject]
                [("a", VNumber 1); ("b", VString "poopy");
                 ("c", VArray [Some (VNumber 3); Some (VString "poopy")] [])]) false;
   @convertValueFromFirestore bare_host 3 default_options r)
  = Return (VObject [CObject]
              [("a", VNumber 1); ("b", VString "poopy");
               ("c", VArray [Some (VNumber 3); Some (VString "poopy")] [])]).
Proof.
  apply (@plain_data_round_trip bare_host
           (VObject [CObject]
              [("a", VNumber 1); ("b", VString "poopy");
               ("c", VArray [Some (VNumber 3); Some (VString "poopy")] [])]) 0).
  - vm_compute. reflexivity.
  - vm_compute. reflexivity.
Defined.

(** ** Failures *)



Lemma index_entries_elem_of (i : nat) (items : list (option value))
    (e : string * value) :
  e ∈ index_entries i items -> Some e.2 ∈ items.
Proof.
  revert i. induction items as [|[x|] items IH]; intros i; simpl.
  - intros He. by apply elem_of_nil in He.
  - intros He. apply elem_of_cons in He as [->|He]; [left|right; eauto].
  - intros He. right. eauto.
Qed.

(** The own properties of an array are no deeper than the array. *)
Lemma depth_own_array (items : list (option value)) (extra : list (string * value))
    (e : string * value) :
  e ∈ index_entries 0 items
        ++ [("length", VNumber (Z.of_nat (length items)))] ++ extra ->
  depth e.2 < depth (VArray items extra).
Proof.
  rewrite !elem_of_app. intros [He|[He|He]].
  - by apply depth_item, (index_entries_elem_of 0).
  - apply list_elem_of_singleton in He as ->. simpl. lia.
  - by apply depth_extra.
Qed.

Lemma toFirestoreCases_object `{Host} self o protos props insideArray :
  passes_through (VObject protos props) = false ->
  toFirestoreCases self o (VObject protos props) insideArray
  = if decide (head protos = Some CObject) then
      do result <- assign_converted (fun val => self val false) props [];
      Return (VObject [CObject] result)
    else typedPlainObject (fun x => self x false) o (VObject protos props) true.
Proof.
  unfold passes_through. intros Hp. apply orb_false_iff in Hp as [Hn Hd].
  unfold toFirestoreCases. rewrite Hn, Hd. simpl.
  destruct (decide (head protos = Some CObject)); reflexivity.
Qed.


Section failures.
Context `{Host} (o : options).
Hypothesis no_converters : toFirestoreConverters o = ∅.


Hypothesis error_mode : multidimensionalArrays o = "error".

End failures.




(** ** Custom converters *)

Lemma custom_returns (table : gmap string converter) key v f r otherwise :
  table !! key = Some f -> f v = Return r -> is_continue r = false ->
  custom table key v otherwise = Return r.
Proof. unfold custom. intros -> -> Hr. simpl. by rewrite Hr. Qed.

Lemma custom_continues (table : gmap string converter) key v otherwise :
  (forall f, table !! key = Some f -> exists c, f v = Return c /\ is_continue c = true) ->
  custom table key v otherwise = otherwise.
Proof.
  unfold custom. intros Hc. destruct (table !! key) as [f|]; [|done].
  destruct (Hc f eq_refl) as (c & -> & Hcont). simpl. by rewrite Hcont.
Qed.

Lemma custom_named_returns (table : gmap string converter) n v g r otherwise :
  n <> "" -> table !! n = Some g -> g v = Return r -> is_continue r = false ->
  custom_named table (Some n) v otherwise = Return r.
Proof.
  intros Hn Hg Hr Hc. unfold custom_named. rewrite decide_False by done.
  by eapply custom_returns.
Qed.

Lemma declines_falls_through (table : gmap string converter) v otherwise :
  declines table v ->
  custom table (typeof v) v (custom_named table (constructorName v) v otherwise)
  = otherwise.
Proof.
  intros Hd. rewrite custom_continues by (intros f; apply Hd; by left).
  unfold custom_named. destruct (constructorName v) as [n|] eqn:Hn; [|done].
  case_decide; [done|]. apply custom_continues. intros f. apply Hd. by right.
Qed.

(** The loops only depend on the values of the conversion they are given. *)

Lemma traverse_ext {A B : Type} (g g' : A -> outcome B) (l : list A) :
  (forall x, g x = g' x) -> traverse g l = traverse g' l.
Proof. intros E. induction l as [|x l IH]; simpl; [done|]. by rewrite E, IH. Qed.

Lemma map_items_ext (f f' : value -> outcome value) (items : list (option value)) :
  (forall x, f x = f' x) -> map_items f items = map_items f' items.
Proof. intros E. apply traverse_ext. intros [x|]; [|done]. by rewrite E. Qed.

Lemma assign_converted_ext (f f' : value -> outcome value)
    (es acc : list (string * value)) :
  (forall x, f x = f' x) -> assign_converted f es acc = assign_converted f' es acc.
Proof.
  intros E. revert acc. induction es as [|[k v] es IH]; intros acc; simpl; [done|].
  rewrite E. destruct (f' v); simpl; [apply IH|done..].
Qed.

Lemma assign_items_ext `{Host} (f f' : value -> outcome value) (skip : string)
    (es : list (string * value)) acc :
  (forall x, f x = f' x) -> assign_items f skip es acc = assign_items f' skip es acc.
Proof.
  intros E. revert acc. induction es as [|[k v] es IH]; intros acc; simpl; [done|].
  case_decide; [apply IH|]. rewrite E. destruct (f' v); simpl; [|done..].
  destruct (array_assign k a acc); simpl; [apply IH|done..].
Qed.

Lemma typedPlainObject_ext `{Host} (f f' : value -> outcome value) o o' v b :
  (forall x, f x = f' x) -> constructorKey o = constructorKey o' ->
  typedPlainObject f o v b = typedPlainObject f' o' v b.
Proof.
  intros E Hk. unfold typedPlainObject. rewrite Hk.
  destruct (ownProperties v); simpl; [|done..].
  rewrite (traverse_ext _ (fun kv => if b then do r <- f' kv.2; Return (kv.1, r)
                                     else Return kv)); [done|].
  intros kv. destruct b; [|done]. by rewrite E.
Qed.

Lemma toFirestoreCases_ext `{Host} self self' o o' v insideArray :
  (forall x b, self x b = self' x b) -> same_policy o o' ->
  toFirestoreCases self o v insideArray = toFirestoreCases self' o' v insideArray.
Proof.
  intros E (Hu & Hm & Hf & Hb & Hk).
  unfold toFirestoreCases, functionCase. rewrite Hu, Hm, Hf, Hb, Hk.
  rewrite (typedPlainObject_ext (fun x => self x false) (fun x => self' x false) o o')
    by done.
  destruct v; try reflexivity.
  - rewrite (map_items_ext (fun item => self item true) (fun item => self' item true))
      by done.
    reflexivity.
  - cbn [entries bind].
    rewrite (assign_converted_ext (fun val => self val false) (fun val => self' val false))
      by done.
    reflexivity.
Qed.

Lemma fromFirestoreCases_ext `{Host} self self' o o' v :
  (forall x, self x = self' x) -> same_policy o o' ->
  fromFirestoreCases self o v = fromFirestoreCases self' o' v.
Proof.
  intros E (Hu & Hm & Hf & Hb & Hk).
  unfold fromFirestoreCases. rewrite Hm, Hf, Hk.
  destruct (entries v) as [es| |] eqn:Hes; cbn [bind].
  - rewrite (assign_items_ext self self') by done.
    rewrite (assign_converted_ext self self') by done.
    destruct v; try reflexivity.
    by rewrite (map_items_ext self self').
  - destruct v; try reflexivity. by rewrite (map_items_ext self self').
  - destruct v; try reflexivity. by rewrite (map_items_ext self self').
Qed.

Lemma same_policy_without_converters o : same_policy o (without_converters o).
Proof. by repeat split. Qed.

Section declining_converters.
Context `{Host} (o : options).

Lemma outbound_declined_everywhere (fuel : nat) (v : value) (insideArray : bool) :
  (forall x, declines (toFirestoreConverters o) x) ->
  convertValueToFirestore fuel o v insideArray
  = convertValueToFirestore fuel (without_converters o) v insideArray.
Proof.
  intros Hd. revert v insideArray.
  induction fuel as [|fuel IH]; intros v insideArray; [done|].
  rewrite convertValueToFirestore_S, declines_falls_through by done.
  rewrite (convertValueToFirestore_plain _ (without_converters o)) by done.
  apply toFirestoreCases_ext; [done|apply same_policy_without_converters].
Qed.

Lemma inbound_declined_everywhere (fuel : nat) (v : value) :
  (forall x, declines (fromFirestoreConverters o) x) ->
  convertValueFromFirestore fuel o v
  = convertValueFromFirestore fuel (without_converters o) v.
Proof.
  intros Hd. revert v.
  induction fuel as [|fuel IH]; intros v; [done|].
  rewrite convertValueFromFirestore_S, declines_falls_through by done.
  rewrite (convertValueFromFirestore_plain _ (without_converters o)) by done.
  apply fromFirestoreCases_ext; [done|apply same_policy_without_converters].
Qed.
End declining_converters.

(** C3, as stated: when every custom converter that matches [v] returns a
    [ContinueConversion], the result is the one the converter without custom
    converters produces.  This fails for the array [[1]] when a converter for
    ["object"] declines it and a converter for ["number"] answers ["one"]: the
    elements go through the same entry point and meet the custom converters
    again. *)
Lemma declined_at_the_top_only :
  declines (toFirestoreConverters number_hook_after_continue) (numbers [1%Z])
  /\ @convertValueToFirestore bare_host 2 number_hook_after_continue
       (numbers [1%Z]) false
     = Return (VArray [Some (VString "one")] [])
  /\ @convertValueToFirestore bare_host 2 (without_converters number_hook_after_continue)
       (numbers [1%Z]) false
     = Return (numbers [1%Z])
  /\ @convertValueToFirestore bare_host 2 number_hook_after_continue
       (numbers [1%Z]) false
     <> @convertValueToFirestore bare_host 2 (without_converters number_hook_after_continue)
          (numbers [1%Z]) false.
Proof.
  split; [|repeat split; vm_compute; congruence].
  intros key f [->|[Hn Hne]] Hf.
  - vm_compute in Hf. injection Hf as <-. exists continue_marker. by split.
  - injection Hn as <-. vm_compute in Hf. discriminate.
Qed.

(** C3, amended, for outbound and for inbound conversion alike: a custom
    converter registered under the type tag of [v] whose result is not a
    [ContinueConversion] decides the result, before every built-in case; so
    does, when the former is missing or declines, a converter registered
    under the constructor name of [v]; when every matching converter
    declines, the result is that of the built-in cases for [v], in which the
    values nested in [v] are again offered to the custom converters; and it
    is the result of the converter without custom converters when the custom
    converters decline every value. *)
Theorem custom_converters_first `{Host} (o : options) (v : value) (fuel : nat)
    (insideArray : bool) :
  (forall f r,
     toFirestoreConverters o !! typeof v = Some f ->
     f v = Return r -> is_continue r = false ->
     convertValueToFirestore (S fuel) o v insideArray = Return r)
  /\ (forall n g r,
        (forall f, toFirestoreConverters o !! typeof v = Some f ->
           exists c, f v = Return c /\ is_continue c = true) ->
        constructorName v = Some n -> n <> "" ->
        toFirestoreConverters o !! n = Some g ->
        g v = Return r -> is_continue r = false ->
        convertValueToFirestore (S fuel) o v insideArray = Return r)
  /\ (declines (toFirestoreConverters o) v ->
      convertValueToFirestore (S fuel) o v insideArray
      = toFirestoreCases (convertValueToFirestore fuel o) o v insideArray)
  /\ ((forall x, declines (toFirestoreConverters o) x) ->
      convertValueToFirestore fuel o v insideArray
      = convertValueToFirestore fuel (without_converters o) v insideArray)
  /\ (forall f r,
        fromFirestoreConverters o !! typeof v = Some f ->
        f v = Return r -> is_continue r = false ->
        convertValueFromFirestore (S fuel) o v = Return r)
  /\ (forall n g r,
        (forall f, fromFirestoreConverters o !! typeof v = Some f ->
           exists c, f v = Return c /\ is_continue c = true) ->
        constructorName v = Some n -> n <> "" ->
        fromFirestoreConverters o !! n = Some g ->
        g v = Return r -> is_continue r = false ->
        convertValueFromFirestore (S fuel) o v = Return r)
  /\ (declines (fromFirestoreConverters o) v ->
      convertValueFromFirestore (S fuel) o v
      = fromFirestoreCases (convertValueFromFirestore fuel o) o v)
  /\ ((forall x, declines (fromFirestoreConverters o) x) ->
      convertValueFromFirestore fuel o v
      = convertValueFromFirestore fuel (without_converters o) v).
Proof.
  repeat split.
  - intros f r Hf Hr Hc. rewrite convertValueToFirestore_S.
    by eapply custom_returns.
  - intros n g r Htag Hn Hne Hg Hr Hc. rewrite convertValueToFirestore_S.
    rewrite custom_continues, Hn by done. by eapply custom_named_returns.
  - intros Hd. by rewrite convertValueToFirestore_S, declines_falls_through.
  - apply outbound_declined_everywhere.
  - intros f r Hf Hr Hc. rewrite convertValueFromFirestore_S.
    by eapply custom_returns.
  - intros n g r Htag Hn Hne Hg Hr Hc. rewrite convertValueFromFirestore_S.
    rewrite custom_continues, Hn by done. by eapply custom_named_returns.
  - intros Hd. by rewrite convertValueFromFirestore_S, declines_falls_through.
  - apply inbound_declined_everywhere.
Qed.

Lemma custom_converters_first_witness :
  @convertValueToFirestore bare_host 1 number_hook_after_continue (VNumber 1) true
  = Return (VString "one").
Proof.
  apply (proj1 (@custom_converters_first bare_host number_hook_after_continue
                  (VNumber 1) 0 true)
           (fun _ => Return (VString "one")) (VString "one")).
  - vm_compute. reflexivity.
  - reflexivity.
  - reflexivity.
Defined.

(** * Further properties of the converter *)

(** ** The nested flag *)

(** X1: the flag [insideArray] only matters for arrays: every other value is
    converted the same way inside and outside an array, whatever the options
    and the custom converters. *)
Theorem insideArray_only_matters_for_arrays `{Host} (o : options) (v : value) (fuel : nat) :
  isArray v = false ->
  convertValueToFirestore fuel o v true = convertValueToFirestore fuel o v false.
Proof.
  intros Hv. destruct fuel as [|fuel]; [done|].
  rewrite !convertValueToFirestore_S.
  by destruct v.
Qed.

Lemma insideArray_only_matters_for_arrays_witness :
  @convertValueToFirestore bare_host 2 error_options
    (VObject [CObject] [("c", numbers [6; 7; 8]%Z)]) true
  = @convertValueToFirestore bare_host 2 error_options
      (VObject [CObject] [("c", numbers [6; 7; 8]%Z)]) false.
Proof.
  apply (@insideArray_only_matters_for_arrays bare_host error_options
           (VObject [CObject] [("c", numbers [6; 7; 8]%Z)]) 2).
  reflexivity.
Defined.

(** ** [null] *)

(** X2: [null] does not survive the round trip.  Outbound conversion returns
    it, but inbound conversion, when no custom converter is registered for
    ["object"], reaches [Object.entries(null)] in its last case and throws a
    [TypeError]. *)
Theorem null_is_not_read_back `{Host} (o : options) (fuel : nat) (insideArray : bool) :
  toFirestoreConverters o !! "object" = None ->
  fromFirestoreConverters o !! "object" = None ->
  convertValueToFirestore (S fuel) o VNull insideArray = Return VNull
  /\ convertValueFromFirestore (S fuel) o VNull
     = Throw "TypeError: Cannot convert undefined or null to object".
Proof.
  intros Ht Hf. split.
  - rewrite convertValueToFirestore_S. by rewrite custom_absent.
  - rewrite convertValueFromFirestore_S. rewrite custom_absent by done.
    unfold custom_named, fromFirestoreCases, tagged. simpl.
    by rewrite !andb_false_r.
Qed.

Lemma null_is_not_read_back_witness :
  @convertValueToFirestore bare_host 1 default_options VNull false = Return VNull
  /\ @convertValueFromFirestore bare_host 1 default_options VNull
     = Throw "TypeError: Cannot convert undefined or null to object".
Proof.
  apply (@null_is_not_read_back bare_host default_options 0 false).
  - vm_compute. reflexivity.
  - vm_compute. reflexivity.
Defined.

(** ** Values the store understands *)

Lemma toFirestoreCases_passes_through `{Host} self o protos props insideArray :
  passes_through (VObject protos props) = true ->
  toFirestoreCases self o (VObject protos props) insideArray
  = Return (VObject protos props).
Proof.
  unfold passes_through, toFirestoreCases. intros Hp.
  apply orb_true_iff in Hp as [Hp|Hp]; rewrite Hp; [done|].
  by destruct (bool_decide _).
Qed.

(** X3: without custom outbound converters, an object whose nearest
    constructor is named as one of the store's types, or that is an instance
    of [Date] (of a subclass of [Date] too: [instanceof] walks the prototype
    chain), is returned as it is, fields included, under every policy and
    also inside an array. *)
Theorem passed_through_unchanged `{Host} (o : options) (protos : list ctor)
    (props : list (string * value)) (fuel : nat) (insideArray : bool) :
  toFirestoreConverters o = ∅ ->
  passes_through (VObject protos props) = true ->
  convertValueToFirestore (S fuel) o (VObject protos props) insideArray
  = Return (VObject protos props).
Proof.
  intros Ht Hp. rewrite convertValueToFirestore_plain by done.
  by apply toFirestoreCases_passes_through.
Qed.

Lemma passed_through_unchanged_witness :
  @convertValueToFirestore bare_host 1 error_options
    (VObject [CClass "Birthday"; CDate; CObject] [("ring", nested_example)]) true
  = Return (VObject [CClass "Birthday"; CDate; CObject] [("ring", nested_example)]).
Proof.
  apply (@passed_through_unchanged bare_host error_options
           [CClass "Birthday"; CDate; CObject] [("ring", nested_example)] 0 true).
  - reflexivity.
  - vm_compute. reflexivity.
Defined.

(** ** Functions and symbols *)

(** X4: with [functions = "convert"] and no custom converters, what inbound
    conversion makes of a converted function is the value of
    [new Function(`return ${source}`)()] for the source text of the function:
    the stored text is evaluated as it is.  The constructor key must not be
    one of the two field names of the encoding. *)
Theorem converted_function_is_evaluated `{Host} (o : options) (name source : string)
    (fuel fuel' : nat) (insideArray : bool) :
  functions o = "convert" ->
  toFirestoreConverters o = ∅ ->
  fromFirestoreConverters o = ∅ ->
  constructorKey o ∉ ["name"; "string"] ->
  (do r <- convertValueToFirestore (S fuel) o (VFunction name source) insideArray;
   convertValueFromFirestore (S fuel') o r)
  = evalReturn (VString source).
Proof.
  intros Hfun Ht Hf Hk.
  assert (constructorKey o <> "name") as K1 by (intros E; apply Hk; rewrite E; set_solver).
  assert (constructorKey o <> "string") as K2
    by (intros E; apply Hk; rewrite E; set_solver).
  assert (forall A (a b : A),
            (if decide (constructorKey o = constructorKey o) then a else b) = a) as KK
    by (intros; by rewrite decide_True).
  assert ("name" <> "string") as K3 by discriminate.
  rewrite convertValueToFirestore_plain by done.
  unfold toFirestoreCases, functionCase, fromEntries. simpl.
  rewrite Hfun.
  repeat first
    [ rewrite (decide_False (P := constructorKey o = "name")) by done
    | rewrite (decide_False (P := constructorKey o = "string")) by done
    | progress simpl ].
  rewrite convertValueFromFirestore_plain by done.
  unfold fromFirestoreCases, tagged. simpl. rewrite Hfun, !KK.
  simpl. rewrite andb_false_r. simpl.
  repeat first
    [ rewrite (decide_False (P := constructorKey o = "name")) by done
    | rewrite (decide_False (P := constructorKey o = "string")) by done
    | progress simpl ].
  reflexivity.
Qed.

Lemma converted_function_is_evaluated_witness :
  (do r <- @convertValueToFirestore bare_host 1
             (FirestoreDataConverter
                (Build_user_options None None None None (Some "convert") None None None))
             test_function false;
   @convertValueFromFirestore bare_host 1
     (FirestoreDataConverter
        (Build_user_options None None None None (Some "convert") None None None)) r)
  = @evalReturn bare_host (VString "function test(a) { }").
Proof.
  apply (@converted_function_is_evaluated bare_host
           (FirestoreDataConverter
              (Build_user_options None None None None (Some "convert") None None None))
           "test" "function test(a) { }" 0 0 false).
  - reflexivity.
  - reflexivity.
  - reflexivity.
  - apply (bool_decide_unpack _). vm_compute. exact I.
Defined.

(** X5: a symbol is stored as the string [value.toString()] gives and read
    back as that string: without custom converters the round trip of
    [Symbol(description)] is the string ["Symbol(description)"], not a
    symbol. *)
Theorem symbol_becomes_a_string `{Host} (o : options) (description : string)
    (fuel fuel' : nat) (insideArray : bool) :
  toFirestoreConverters o = ∅ ->
  fromFirestoreConverters o = ∅ ->
  (do r <- convertValueToFirestore (S fuel) o (VSymbol description) insideArray;
   convertValueFromFirestore (S fuel') o r)
  = Return (VString ("Symbol(" +:+ description +:+ ")")).
Proof.
  intros Ht Hf. rewrite convertValueToFirestore_plain by done. simpl.
  by rewrite convertValueFromFirestore_scalar.
Qed.

Lemma symbol_becomes_a_string_witness :
  (do r <- @convertValueToFirestore bare_host 1 default_options (VSymbol "poopy") false;
   @convertValueFromFirestore bare_host 1 default_options r)
  = Return (VString "Symbol(poopy)").
Proof.
  apply (@symbol_becomes_a_string bare_host default_options "poopy" 0 0 false);
    reflexivity.
Defined.

(** ** Typed plain objects *)

Lemma fromEntries_fresh (acc es : list (string * value)) :
  NoDup (acc.*1 ++ es.*1) ->
  foldl (fun acc kv => set_prop kv.1 kv.2 acc) acc es = acc ++ es.
Proof.
  revert acc. induction es as [|[k v] es IH]; intros acc Hnd; simpl.
  - by rewrite app_nil_r.
  - rewrite set_prop_fresh.
    + rewrite IH; [by rewrite <- app_assoc|].
      rewrite fmap_app, <- app_assoc. done.
    + simpl in Hnd. apply NoDup_app in Hnd as (_ & Hnd & _).
      intros Hin. apply (Hnd k Hin). left.
Qed.

Lemma fromEntries_NoDup (es : list (string * value)) :
  NoDup es.*1 -> fromEntries es = es.
Proof. intros Hnd. unfold fromEntries. by rewrite fromEntries_fresh. Qed.

Lemma lookup_prop_set_prop (key : string) (v : value) (ps : list (string * value)) :
  lookup_prop key (set_prop key v ps) = Some v.
Proof.
  induction ps as [|[k w] ps IH]; simpl.
  - by rewrite decide_True.
  - destruct (decide (k = key)) as [->|Hne]; simpl.
    + by rewrite decide_True.
    + by rewrite decide_False.
Qed.

Lemma lookup_prop_set_prop_ne (key key' : string) (v : value)
    (ps : list (string * value)) :
  key <> key' -> lookup_prop key' (set_prop key v ps) = lookup_prop key' ps.
Proof.
  intros Hne. induction ps as [|[k w] ps IH]; simpl.
  - by rewrite decide_False.
  - destruct (decide (k = key)) as [->|Hk]; simpl.
    + by rewrite !decide_False.
    + destruct (decide (k = key')); [done|apply IH].
Qed.

Lemma ordinary_NoDup (protos : list ctor) (props : list (string * value)) :
  ordinary (VObject protos props) = true -> NoDup props.*1.
Proof.
  simpl. intros Ho. apply andb_true_iff in Ho as [Ho _].
  apply andb_true_iff in Ho as [_ Ho]. by apply bool_decide_eq_true in Ho.
Qed.

(** X6: an ordinary object without a prototype ([Object.create(null)], no own
    field called [constructor] or [__proto__] at any depth) whose fields all
    convert cannot be converted: it is not a plain object for
    [value?.constructor === Object], so it is encoded as a class instance,
    and reading [object.constructor.name] throws a [TypeError]. *)
Theorem object_without_prototype_throws `{Host} (o : options)
    (props : list (string * value)) (fuel : nat) (insideArray : bool) :
  toFirestoreConverters o = ∅ ->
  ordinary (VObject [] props) = true ->
  (forall e, e ∈ props ->
     exists r, convertValueToFirestore fuel o e.2 false = Return r) ->
  convertValueToFirestore (S fuel) o (VObject [] props) insideArray
  = Throw "TypeError: Cannot read properties of undefined (reading 'name')".
Proof.
  intros Ht _ Hprops. rewrite convertValueToFirestore_plain by done.
  rewrite toFirestoreCases_object by reflexivity. simpl.
  unfold typedPlainObject. simpl.
  destruct (traverse_Return
              (fun kv => do r <- convertValueToFirestore fuel o kv.2 false;
                         Return (kv.1, r)) props) as (es & -> & _); [|done].
  intros e He. destruct (Hprops e He) as [r ->]. by eexists.
Qed.

Lemma object_without_prototype_throws_witness :
  @convertValueToFirestore bare_host 2 default_options
    (VObject [] [("a", VNumber 1)]) false
  = Throw "TypeError: Cannot read properties of undefined (reading 'name')".
Proof.
  apply (@object_without_prototype_throws bare_host default_options
           [("a", VNumber 1)] 1 false).
  - reflexivity.
  - vm_compute. reflexivity.
  - intros e He. apply list_elem_of_singleton in He as ->.
    eexists. vm_compute. reflexivity.
Defined.

(** X7: for an ordinary object with a constructor (no own field called
    [constructor] or [__proto__]) and a constructor key that is neither
    [__proto__] nor an array index, [convertToTypedPlainObject(object, false)]
    copies the own properties as they are and sets the constructor key to
    the name of the nearest constructor: it converts nothing (no frame is
    needed), keeps the order of the keys, adds the constructor key last when
    it is new, and overwrites in place an own property that already has the
    name of the constructor key. *)
Theorem typed_plain_object_without_conversion `{Host} (o : options) (c : ctor)
    (protos : list ctor) (props : list (string * value)) (fuel : nat) :
  ordinary (VObject (c :: protos) props) = true ->
  constructorKey o <> "__proto__" ->
  index_of_key (constructorKey o) = None ->
  exists result,
    convertToTypedPlainObject fuel o (VObject (c :: protos) props) false
    = Return (VObject [CObject] result)
    /\ result = set_prop (constructorKey o) (VString (ctor_name c)) props
    /\ get (VObject [CObject] result) (constructorKey o) = Some (VString (ctor_name c))
    /\ (forall key, key <> constructorKey o ->
          get (VObject [CObject] result) key = get (VObject (c :: protos) props) key).
Proof.
  intros Ho _ _. apply ordinary_NoDup in Ho as Hnd.
  eexists. split; [|split; [reflexivity|split]].
  - unfold convertToTypedPlainObject, typedPlainObject. simpl.
    rewrite traverse_id by done. simpl. by rewrite fromEntries_NoDup.
  - apply lookup_prop_set_prop.
  - intros key Hne. simpl. by apply lookup_prop_set_prop_ne.
Qed.

Lemma typed_plain_object_without_conversion_witness :
  exists result,
    @convertToTypedPlainObject bare_host 0 default_options point false
    = Return (VObject [CObject] result)
    /\ result = set_prop "_constructor" (VString "Point")
                  [("x", VNumber 1); ("y", VNumber 2)]
    /\ get (VObject [CObject] result) "_constructor" = Some (VString "Point")
    /\ (forall key, key <> "_constructor" ->
          get (VObject [CObject] result) key = get point key).
Proof.
  apply (@typed_plain_object_without_conversion bare_host default_options
           (CClass "Point") [CObject] [("x", VNumber 1); ("y", VNumber 2)] 0).
  - vm_compute. reflexivity.
  - discriminate.
  - vm_compute. reflexivity.
Defined.

(** ** [isInstanceOf] *)

Lemma walk_elem_of (chain : list ctor) (type : string) :
  walk chain type = true <-> type ∈ ctor_name <$> chain.
Proof.
  induction chain as [|c chain IH]; simpl.
  - split; [done|]. intros Hin. by apply elem_of_nil in Hin.
  - rewrite elem_of_cons. destruct (decide (ctor_name c = type)) as [->|Hne].
    + split; auto.
    + rewrite IH. split; [auto|]. by intros [->|?].
Qed.

(** X8: for a value without an own property called [constructor] (so that
    [value.constructor] is the constructor of its nearest prototype),
    [isInstanceOf] recognises whatever the converter's own tests recognise:
    the name of the nearest constructor of the value, and the name of every
    constructor the value is an [instanceof]; it answers by name along the
    whole prototype chain. *)
Theorem isInstanceOf_covers_the_converter_tests (v : value) :
  get v "constructor" = None ->
  (forall n, constructorName v = Some n -> isInstanceOf v n = true)
  /\ (forall c, instanceof v c = true -> isInstanceOf v (ctor_name c) = true).
Proof.
  intros _. split.
  - intros n Hn. destruct v; simpl in Hn; try discriminate;
      try (injection Hn as <-; reflexivity).
    unfold constructorName in Hn. simpl in Hn.
    destruct protos as [|c protos]; [discriminate|]. injection Hn as <-.
    simpl. by rewrite decide_True.
  - intros c Hc. destruct v; try discriminate. simpl in Hc.
    apply bool_decide_eq_true in Hc. simpl. apply walk_elem_of.
    by apply list_elem_of_fmap_2.
Qed.

Lemma isInstanceOf_covers_the_converter_tests_witness :
  (forall n, constructorName server_timestamp = Some n ->
     isInstanceOf server_timestamp n = true)
  /\ (forall c, instanceof server_timestamp c = true ->
        isInstanceOf server_timestamp (ctor_name c) = true).
Proof.
  apply (isInstanceOf_covers_the_converter_tests server_timestamp).
  reflexivity.
Defined.

(** X9: [isInstanceOf(object, type)] holds exactly when [object] is neither
    [null] nor [undefined] and [type] is the name of a constructor met on its
    prototype chain. *)
Theorem isInstanceOf_by_name (v : value) (type : string) :
  isInstanceOf v type = true
  <-> (v <> VNull /\ v <> VUndefined /\ type ∈ ctor_name <$> prototypes v).
Proof.
  unfold isInstanceOf.
  destruct v;
    try (rewrite walk_elem_of; split; [intros Hw; by repeat split|by intros (_ & _ & Hw)]).
  - split; [done|]. by intros (_ & Hn & _).
  - split; [done|]. by intros (Hn & _).
Qed.

(** ** The shape of converted containers *)

Lemma Forall2_keys {P : value -> value -> Prop} (es ts : list (string * value)) :
  Forall2 (fun e t => t.1 = e.1 /\ P e.2 t.2) es ts -> ts.*1 = es.*1.
Proof.
  induction 1 as [|e t es ts [Hk _] _ IH]; [done|].
  rewrite !fmap_cons. by f_equal.
Qed.

Lemma traverse_pairs (f : value -> outcome value) (props : list (string * value)) :
  (forall e, e ∈ props -> exists r, f e.2 = Return r) ->
  exists es,
    traverse (fun kv => do r <- f kv.2; Return (kv.1, r)) props = Return es
    /\ Forall2 (fun e t => t.1 = e.1 /\ f e.2 = Return t.2) props es.
Proof.
  intros Hf.
  destruct (traverse_Return (fun kv => do r <- f kv.2; Return (kv.1, r)) props)
    as (es & Hes & Hall).
  - intros e He. destruct (Hf e He) as [r ->]. by eexists.
  - exists es. split; [done|]. eapply Forall2_impl; [done|].
    intros e t. simpl. destruct (f e.2); simpl; [|done..]. by intros [= <-].
Qed.



(** X11: without custom outbound converters, an ordinary plain object (no
    own field called [constructor] or [__proto__] at any depth) whose fields
    all convert is converted to a plain object with the same keys in the
    same order, every field holding the conversion of the field it comes
    from (converted as a top-level value, also when the object is an element
    of an array). *)
Theorem plain_object_keeps_its_keys `{Host} (o : options)
    (props : list (string * value)) (fuel : nat) (insideArray : bool) :
  toFirestoreConverters o = ∅ ->
  ordinary (VObject [CObject] props) = true ->
  (forall e, e ∈ props ->
     exists r, convertValueToFirestore fuel o e.2 false = Return r) ->
  exists rs,
    convertValueToFirestore (S fuel) o (VObject [CObject] props) insideArray
    = Return (VObject [CObject] rs)
    /\ rs.*1 = props.*1
    /\ (forall key x, get (VObject [CObject] props) key = Some x ->
          exists r, get (VObject [CObject] rs) key = Some r
                    /\ convertValueToFirestore fuel o x false = Return r).
Proof.
  intros Ht Ho Hprops. apply ordinary_NoDup in Ho as Hnd.
  rewrite convertValueToFirestore_plain, toFirestoreCases_plain_object by done.
  destruct (assign_converted_Return
              (fun val => convertValueToFirestore fuel o val false) props [])
    as (rs & -> & Hall); [done|done|].
  exists rs. split; [done|]. split.
  - by apply (Forall2_keys
                (P := fun x r => convertValueToFirestore fuel o x false = Return r)).
  - intros key x Hx. simpl in *.
    apply (lookup_prop_Forall2
             (fun val => convertValueToFirestore fuel o val false) key x props rs Hall Hx).
Qed.

Lemma plain_object_keeps_its_keys_witness :
  exists rs,
    @convertValueToFirestore bare_host 2 default_options
      (VObject [CObject] [("a", VNumber 1); ("f", test_function)]) true
    = Return (VObject [CObject] rs)
    /\ rs.*1 = ["a"; "f"]
    /\ (forall key x,
          get (VObject [CObject] [("a", VNumber 1); ("f", test_function)]) key = Some x ->
          exists r, get (VObject [CObject] rs) key = Some r
                    /\ @convertValueToFirestore bare_host 1 default_options x false
                       = Return r).
Proof.
  apply (@plain_object_keeps_its_keys bare_host default_options
           [("a", VNumber 1); ("f", test_function)] 1 true).
  - reflexivity.
  - vm_compute. reflexivity.
  - intros e He.
    apply elem_of_cons in He as [->|He]; [eexists; vm_compute; reflexivity|].
    apply list_elem_of_singleton in He as ->. eexists. vm_compute. reflexivity.
Defined.

(** X12: without custom outbound converters and with a constructor key other
    than [__proto__], an ordinary instance of a class (an object whose
    nearest constructor is not [Object], which is not passed through, and
    which has no own field called [constructor] or [__proto__] at any depth)
    whose fields all convert is converted to a plain object that holds the
    name of the class under the constructor key and, under every other key,
    the conversion of the instance's field.  An own field of the instance
    that is called like the constructor key is overwritten by the class
    name. *)
Theorem class_instance_is_tagged `{Host} (o : options) (c : ctor) (protos : list ctor)
    (props : list (string * value)) (fuel : nat) (insideArray : bool) :
  toFirestoreConverters o = ∅ ->
  constructorKey o <> "__proto__" ->
  c <> CObject ->
  passes_through (VObject (c :: protos) props) = false ->
  ordinary (VObject (c :: protos) props) = true ->
  (forall e, e ∈ props ->
     exists r, convertValueToFirestore fuel o e.2 false = Return r) ->
  exists rs,
    convertValueToFirestore (S fuel) o (VObject (c :: protos) props) insideArray
    = Return (VObject [CObject] rs)
    /\ get (VObject [CObject] rs) (constructorKey o) = Some (VString (ctor_name c))
    /\ (forall key x, key <> constructorKey o ->
          get (VObject (c :: protos) props) key = Some x ->
          exists r, get (VObject [CObject] rs) key = Some r
                    /\ convertValueToFirestore fuel o x false = Return r).
Proof.
  intros Ht _ Hc Hp Ho Hprops. apply ordinary_NoDup in Ho as Hnd.
  rewrite convertValueToFirestore_plain, toFirestoreCases_object by done.
  simpl. rewrite decide_False by congruence.
  unfold typedPlainObject. simpl.
  destruct (traverse_pairs
              (fun val => convertValueToFirestore fuel o val false) props Hprops)
    as (es & -> & Hall).
  simpl. eexists. split; [done|].
  pose proof (Forall2_keys
                (P := fun x r => convertValueToFirestore fuel o x false = Return r)
                props es Hall) as Hkeys.
  rewrite fromEntries_NoDup by (by rewrite Hkeys). split.
  - apply lookup_prop_set_prop.
  - intros key x Hne Hx. simpl in *.
    rewrite lookup_prop_set_prop_ne by done.
    apply (lookup_prop_Forall2
             (fun val => convertValueToFirestore fuel o val false) key x props es Hall Hx).
Qed.

Lemma class_instance_is_tagged_witness :
  exists rs,
    @convertValueToFirestore bare_host 2 default_options
      (VObject [CClass "Point"; CObject]
         [("x", VNumber 1); ("_constructor", VString "poopy")]) false
    = Return (VObject [CObject] rs)
    /\ get (VObject [CObject] rs) "_constructor" = Some (VString "Point")
    /\ (forall key x, key <> "_constructor" ->
          get (VObject [CClass "Point"; CObject]
                 [("x", VNumber 1); ("_constructor", VString "poopy")]) key = Some x ->
          exists r, get (VObject [CObject] rs) key = Some r
                    /\ @convertValueToFirestore bare_host 1 default_options x false
                       = Return r).
Proof.
  apply (@class_instance_is_tagged bare_host default_options (CClass "Point") [CObject]
           [("x", VNumber 1); ("_constructor", VString "poopy")] 1 false).
  - reflexivity.
  - discriminate.
  - discriminate.
  - vm_compute. reflexivity.
  - vm_compute. reflexivity.
  - intros e He.
    apply elem_of_cons in He as [->|He]; [eexists; vm_compute; reflexivity|].
    apply list_elem_of_singleton in He as ->. eexists. vm_compute. reflexivity.
Defined.

(** X13: without custom inbound converters, an ordinary object (no own field
    called [constructor] or [__proto__] at any depth) that is not named
    [Timestamp] and is not decoded as an array or a function (its field under
    the constructor key is not the tag, or the policy does not convert),
    with fields that all convert, is read back as a plain object with the
    same keys in the same order: its prototype is dropped, whatever its class
    was, and a class name stored under the constructor key stays a field. *)
Theorem inbound_object_is_plain `{Host} (o : options) (protos : list ctor)
    (props : list (string * value)) (fuel : nat) :
  fromFirestoreConverters o = ∅ ->
  constructorName (VObject protos props) <> Some "Timestamp" ->
  (multidimensionalArrays o = "convert" ->
   tagged (VObject protos props) (constructorKey o) "Array" = false) ->
  (functions o = "convert" ->
   tagged (VObject protos props) (constructorKey o) "Function" = false) ->
  ordinary (VObject protos props) = true ->
  (forall e, e ∈ props -> exists r, convertValueFromFirestore fuel o e.2 = Return r) ->
  exists rs,
    convertValueFromFirestore (S fuel) o (VObject protos props)
    = Return (VObject [CObject] rs)
    /\ rs.*1 = props.*1
    /\ (forall key x, get (VObject protos props) key = Some x ->
          exists r, get (VObject [CObject] rs) key = Some r
                    /\ convertValueFromFirestore fuel o x = Return r).
Proof.
  intros Hf Hname Harr Hfun Ho Hprops. apply ordinary_NoDup in Ho as Hnd.
  rewrite convertValueFromFirestore_plain by done.
  unfold fromFirestoreCases. rewrite decide_False by done.
  assert (bool_decide (multidimensionalArrays o = "convert")
          && tagged (VObject protos props) (constructorKey o) "Array" = false) as ->.
  { case_bool_decide; [by apply Harr|done]. }
  assert (bool_decide (functions o = "convert")
          && tagged (VObject protos props) (constructorKey o) "Function" = false) as ->.
  { case_bool_decide; [by apply Hfun|done]. }
  simpl.
  destruct (assign_converted_Return (convertValueFromFirestore fuel o) props [])
    as (rs & -> & Hall); [done|done|].
  exists rs. split; [done|]. split.
  - by apply (Forall2_keys (P := fun x r => convertValueFromFirestore fuel o x = Return r)).
  - intros key x Hx. simpl in *.
    apply (lookup_prop_Forall2 (convertValueFromFirestore fuel o) key x props rs Hall Hx).
Qed.

Lemma inbound_object_is_plain_witness :
  exists rs,
    @convertValueFromFirestore bare_host 2 default_options
      (VObject [CClass "Point"; CObject] [("x", VNumber 1); ("y", VNumber 2)])
    = Return (VObject [CObject] rs)
    /\ rs.*1 = ["x"; "y"]
    /\ (forall key x,
          get (VObject [CClass "Point"; CObject] [("x", VNumber 1); ("y", VNumber 2)]) key
          = Some x ->
          exists r, get (VObject [CObject] rs) key = Some r
                    /\ @convertValueFromFirestore bare_host 1 default_options x = Return r).
Proof.
  apply (@inbound_object_is_plain bare_host default_options [CClass "Point"; CObject]
           [("x", VNumber 1); ("y", VNumber 2)] 1).
  - reflexivity.
  - discriminate.
  - intros _. vm_compute. reflexivity.
  - intros _. vm_compute. reflexivity.
  - vm_compute. reflexivity.
  - intros e He.
    apply elem_of_cons in He as [->|He]; [eexists; vm_compute; reflexivity|].
    apply list_elem_of_singleton in He as ->. eexists. vm_compute. reflexivity.
Defined.

(** ** Policies that do not throw *)

Lemma assign_converted_returns (f : value -> outcome value)
    (es acc : list (string * value)) :
  (forall e, e ∈ es -> exists r, f e.2 = Return r) ->
  exists rs, assign_converted f es acc = Return rs.
Proof.
  revert acc. induction es as [|[k v] es IH]; intros acc Hf; simpl; [by eexists|].
  destruct (Hf (k, v)) as [r Hr]; [left|]. simpl in Hr. rewrite Hr. simpl.
  apply IH. intros e He. apply Hf. by right.
Qed.

Lemma typedPlainObject_returns `{Host} (f : value -> outcome value) o v own c :
  ownProperties v = Return own ->
  (forall e, e ∈ own -> exists r, f e.2 = Return r) ->
  constructor_of v = Some c ->
  exists r, typedPlainObject f o v true = Return r.
Proof.
  intros Hown Hf Hc. unfold typedPlainObject. rewrite Hown. simpl.
  destruct (traverse_pairs f own Hf) as (es & -> & _). simpl. rewrite Hc. by eexists.
Qed.

Lemma elem_of_pair (x a b : string) : x ∈ [a; b] -> x = a \/ x = b.
Proof.
  intros Hx. apply elem_of_cons in Hx as [?|Hx]; [by left|].
  apply list_elem_of_singleton in Hx. by right.
Qed.

Section lenient_policies.
Context `{Host} (o : options).
Hypothesis no_converters : toFirestoreConverters o = ∅.
Hypothesis lenient_undefined : undefinedValues o ∈ ["omit"; "null"].
Hypothesis lenient_arrays : multidimensionalArrays o ∈ ["convert"; "omit"].
Hypothesis lenient_functions : functions o ∈ ["convert"; "omit"].

Lemma lenient_conversion_returns (fuel : nat) (v : value) (insideArray : bool) :
  depth v < fuel ->
  prototyped v = true ->
  exists r, convertValueToFirestore fuel o v insideArray = Return r.
Proof.
  revert v insideArray.
  induction fuel as [|fuel IH]; intros v insideArray Hd Hp; [lia|].
  rewrite convertValueToFirestore_plain by done.
  destruct v as [| | | | | | |name source|items extra|protos props];
    try (by eexists).
  - simpl. destruct (elem_of_pair _ _ _ lenient_undefined) as [E|E];
      rewrite E; by eexists.
  - unfold toFirestoreCases, functionCase. simpl.
    destruct (elem_of_pair _ _ _ lenient_functions) as [E|E]; rewrite E; by eexists.
  - simpl in Hp. apply andb_true_iff in Hp as [Hitems Hextra].
    rewrite toFirestoreCases_array. destruct insideArray.
    + destruct (elem_of_pair _ _ _ lenient_arrays) as [E|E]; rewrite E;
        [|by eexists].
      rewrite decide_True by done.
      eapply typedPlainObject_returns; [done| |done].
      intros e He. apply IH; [pose proof (depth_own_array _ _ _ He); lia|].
      rewrite !elem_of_app in He. destruct He as [He|[He|He]].
      * apply (index_entries_elem_of 0) in He.
        apply (forallb_elem_of _ _ _ Hitems He).
      * by apply list_elem_of_singleton in He as ->.
      * apply (forallb_elem_of _ _ _ Hextra He).
    + destruct (map_items_Return
                  (fun item => convertValueToFirestore fuel o item true) items)
        as (rs & -> & _); [|by eexists].
      intros x Hx. apply IH; [pose proof (depth_item items extra x Hx); lia|].
      apply (forallb_elem_of _ _ _ Hitems Hx).
  - simpl in Hp. apply andb_true_iff in Hp as [Hprotos Hprops].
    apply negb_true_iff, bool_decide_eq_false in Hprotos.
    assert (forall e, e ∈ props ->
              exists r, convertValueToFirestore fuel o e.2 false = Return r) as Hfields.
    { intros e He. apply IH; [pose proof (depth_prop protos props e He); lia|].
      apply (forallb_elem_of _ _ _ Hprops He). }
    destruct (passes_through (VObject protos props)) eqn:Hpass.
    + exists (VObject protos props). by apply toFirestoreCases_passes_through.
    + rewrite toFirestoreCases_object by done. case_decide.
      * destruct (assign_converted_returns
                    (fun val => convertValueToFirestore fuel o val false) props [] Hfields)
          as [rs ->]. by eexists.
      * destruct protos as [|c protos]; [done|].
        by eapply typedPlainObject_returns.
Qed.
End lenient_policies.

(** X14: outbound conversion never throws under the policies that do not ask
    for it.  Without custom converters, with [undefinedValues] one of
    ["omit"] and ["null"], [multidimensionalArrays] one of ["convert"] and
    ["omit"], and [functions] one of ["convert"] and ["omit"] (whatever
    [fallback] is), every ordinary value (no object or array in it has an own
    property called [constructor] or [__proto__]) in which each object has a
    prototype is converted to some value. *)
Theorem lenient_policies_never_throw `{Host} (o : options) (v : value) (fuel : nat)
    (insideArray : bool) :
  toFirestoreConverters o = ∅ ->
  undefinedValues o ∈ ["omit"; "null"] ->
  multidimensionalArrays o ∈ ["convert"; "omit"] ->
  functions o ∈ ["convert"; "omit"] ->
  ordinary v = true ->
  prototyped v = true ->
  exists r, convertValueToFirestore (S (depth v) + fuel) o v insideArray = Return r.
Proof.
  intros Ht Hu Hm Hf _ Hp. apply lenient_conversion_returns; [done..|lia|done].
Qed.

Lemma lenient_policies_never_throw_witness :
  exists r,
    @convertValueToFirestore bare_host 4 default_options
      (VObject [CObject]
         [("c", VArray [Some (VNumber 3); Some (numbers [6; 7; 8]%Z)] []);
          ("f", test_function); ("g", server_timestamp)]) false
    = Return r.
Proof.
  apply (@lenient_policies_never_throw bare_host default_options
           (VObject [CObject]
              [("c", VArray [Some (VNumber 3); Some (numbers [6; 7; 8]%Z)] []);
               ("f", test_function); ("g", server_timestamp)]) 0 false).
  - reflexivity.
  - apply (bool_decide_unpack _). vm_compute. exact I.
  - apply (bool_decide_unpack _). vm_compute. exact I.
  - apply (bool_decide_unpack _). vm_compute. exact I.
  - vm_compute. reflexivity.
  - vm_compute. reflexivity.
Defined.

(** ** Plain data under every policy *)

(** X15: no policy applies to plain data.  Without custom outbound
    converters, a value made of scalars, single-level arrays without own
    properties besides their elements, and plain objects without an own
    field called [constructor] or [__proto__] ([plain_data]) is returned as
    it is by outbound conversion, whatever the modes are (the error modes and
    unlisted modes included). *)
Theorem plain_data_is_stored_unchanged `{Host} (o : options) (v : value) (fuel : nat) :
  toFirestoreConverters o = ∅ ->
  plain_data v = true ->
  convertValueToFirestore (S (depth v) + fuel) o v false = Return v.
Proof.
  intros Ht Hp. apply plain_data_outbound; [done|lia|done|done].
Qed.

Lemma plain_data_is_stored_unchanged_witness :
  @convertValueToFirestore bare_host 4 error_options
    (VArray [Some (VObject [CObject] [("c", numbers [6; 7; 8]%Z)])] []) false
  = Return (VArray [Some (VObject [CObject] [("c", numbers [6; 7; 8]%Z)])] []).
Proof.
  apply (@plain_data_is_stored_unchanged bare_host error_options
           (VArray [Some (VObject [CObject] [("c", numbers [6; 7; 8]%Z)])] []) 0).
  - reflexivity.
  - vm_compute. reflexivity.
Defined.

(** X16: the round trip of plain data under every policy.  Without custom
    converters, a value made of scalars, single-level arrays without own
    properties besides their elements, and plain objects without an own
    field called [constructor] or [__proto__] ([plain_data]) is read back as
    it was written, provided no object in it has the tag ["Array"] under the
    constructor key when [multidimensionalArrays] is ["convert"], nor the tag
    ["Function"] when [functions] is ["convert"]. *)
Theorem plain_data_round_trip_under_every_policy `{Host} (o : options) (v : value)
    (fuel : nat) :
  toFirestoreConverters o = ∅ ->
  fromFirestoreConverters o = ∅ ->
  plain_data v = true ->
  (multidimensionalArrays o = "convert" ->
   untagged (constructorKey o) "Array" v = true) ->
  (functions o = "convert" -> untagged (constructorKey o) "Function" v = true) ->
  (do r <- convertValueToFirestore (S (depth v) + fuel) o v false;
   convertValueFromFirestore (S (depth v) + fuel) o r)
  = Return v.
Proof.
  intros Ht Hf Hp Harr Hfun.
  rewrite plain_data_outbound; [|done|lia|done|done]. simpl.
  apply plain_data_inbound; [done|done|done|lia|done].
Qed.

Lemma plain_data_round_trip_under_every_policy_witness :
  (do r <- @convertValueToFirestore bare_host 3 error_options
             (VObject [CObject] [("_constructor", VString "Array");
                                 ("c", numbers [6; 7; 8]%Z)]) false;
   @convertValueFromFirestore bare_host 3 error_options r)
  = Return (VObject [CObject] [("_constructor", VString "Array");
                               ("c", numbers [6; 7; 8]%Z)]).
Proof.
  apply (@plain_data_round_trip_under_every_policy bare_host error_options
           (VObject [CObject] [("_constructor", VString "Array");
                               ("c", numbers [6; 7; 8]%Z)]) 0).
  - reflexivity.
  - reflexivity.
  - vm_compute. reflexivity.
  - intros E. vm_compute in E. discriminate E.
  - intros E. vm_compute in E. discriminate E.
Defined.

(** ** Index keys *)







(** ** Arrays written as typed plain objects and read back *)










Section typed_arrays.
Context `{Host} (o : options).
Hypothesis no_converters_in : fromFirestoreConverters o = ∅.
Hypothesis convert_mode : multidimensionalArrays o = "convert".
Hypothesis key_no_index : index_of_key (constructorKey o) = None.
Hypothesis key_not_length : constructorKey o <> "length".

End typed_arrays.

(** ** The round trip of nested arrays *)





Section nested_round_trip.
Context `{Host} (o : options).
Hypothesis no_converters_out : toFirestoreConverters o = ∅.
Hypothesis no_converters_in : fromFirestoreConverters o = ∅.
Hypothesis convert_mode : multidimensionalArrays o = "convert".
Hypothesis key_no_index : index_of_key (constructorKey o) = None.
Hypothesis key_not_length : constructorKey o <> "length".


End nested_round_trip.


